(** * The continual-learning adapter of [models/utils/continual_model.py]

    A shallow embedding of the class [ContinualModel]: construction with
    the optimizer looked up by name, the forward pass, the instrumented
    training step [meta_observe] around the abstract [observe], the
    logging hook [autolog_wandb], and the checkpoint methods [save] and
    [load].

    Python objects are records, dictionaries are finite maps, and every
    method is a function from the state it can reach (the adapter and its
    surroundings) to a result, which is a value or a raised exception,
    together with the state it leaves behind. *)

From stdpp Require Import gmap strings list fin_maps.

Open Scope string_scope.
Open Scope list_scope.

(** ** Python values *)

(** Exceptions, by class.  [KeyError] carries the missing key,
    [AttributeError] and [NameError] the missing name, [OSError] the path
    that could not be opened. *)
Inductive exn :=
| KeyError (key : string)
| ValueError
| TypeError
| AttributeError (attr : string)
| NameError (name : string)
| NotImplementedError (msg : string)
| OSError (path : string)
| UnpicklingError
| EOFError
| RuntimeError.

(** The outcome of an expression: a value, or a raised exception. *)
Inductive result (A : Type) :=
| Ok (a : A)
| Raise (e : exn).
Arguments Ok {A} a.
Arguments Raise {A} e.

(** Python numbers.  A float is kept as the bit pattern of its IEEE-754
    double: nothing below computes with it, values are only moved. *)
Inductive scalar :=
| SBool (b : bool)
| SInt (z : Z)
| SFloat (bits : Z).

(** A [torch.Tensor] with its shape.  A zero-dimensional tensor has the
    empty shape and holds exactly one element; any other tensor has the
    shape [d :: ds]. *)
Inductive Tensor :=
| Tensor0 (x : scalar)
| TensorN (d : nat) (ds : list nat) (xs : list scalar).

Definition shape (t : Tensor) : list nat :=
  match t with
  | Tensor0 _ => []
  | TensorN d ds _ => d :: ds
  end.

(** [t.dim()] *)
Definition dim (t : Tensor) : nat := length (shape t).

(** [t.item()]: the only element of a one-element tensor as a Python
    number; torch raises for every other tensor. *)
Definition item (t : Tensor) : option scalar :=
  match t with
  | Tensor0 x => Some x
  | TensorN _ _ [x] => Some x
  | TensorN _ _ _ => None
  end.

Inductive PyVal :=
| PNone
| PNum (x : scalar)
| PStr (s : string)
| PTensor (t : Tensor)
| PObject (id : N).   (* any other object, by identity *)

(** ** The optimizer registry *)

(** The classes of [torch.optim] the module imports. *)
Inductive optimizer_class := SGD | Adam.

(** [optimizer_dict = {'sgd': SGD, 'adam': Adam}] *)
Definition optimizer_dict : gmap string optimizer_class :=
  <["sgd" := SGD]> (<["adam" := Adam]> ∅).

(** An optimizer object: its class, the parameters it is bound to and its
    learning rate.  A parameter is referred to by its name in the network
    that owns it: the optimizer shares the network's tensors, it holds no
    copy of their values. *)
Record Optimizer := {
  optim_class : optimizer_class;
  optim_params : list string;
  optim_lr : scalar;
}.

(** ** Networks *)

(** An [nn.Module].  [state_dict] maps the names of its parameters and
    buffers to their tensors, [parameters] lists the names of the
    parameters in registration order, and [forward_fn] is what calling
    the module computes: from the module's tensors and an input to an
    outcome and the tensors it leaves (a layer may update its buffers). *)
Record nn_Module := {
  state_dict : gmap string Tensor;
  parameters : list string;
  forward_fn : gmap string Tensor → PyVal → result PyVal * gmap string Tensor;
}.

Definition set_state_dict (sd : gmap string Tensor) (m : nn_Module) : nn_Module :=
  {| state_dict := sd; parameters := parameters m; forward_fn := forward_fn m |}.

(** [m(x)] *)
Definition call_module (m : nn_Module) (x : PyVal) : result PyVal * nn_Module :=
  let '(r, sd) := forward_fn m (state_dict m) x in (r, set_state_dict sd m).

(** What [load_state_dict] takes from the checkpoint's tensor [t] for
    the module's tensor [own]: [t] itself when the shapes agree; the
    first element of [t] when [own] is zero-dimensional and [t] is a
    vector (torch still reads scalars that were stored as vectors);
    nothing for any other pair of shapes. *)
Definition incoming (t own : Tensor) : option Tensor :=
  if decide (shape t = shape own) then Some t
  else match own, t with
       | Tensor0 _, TensorN _ [] (x :: _) => Some (Tensor0 x)
       | _, _ => None
       end.

(** [m.load_state_dict(sd)], strict as by default.  Every tensor of the
    module whose name is in [sd] with a tensor it can take is
    overwritten in place; the call then raises if a name of the module
    is missing from [sd], a name of [sd] is unknown to the module, or a
    tensor of [sd] cannot be taken for its shape.  The tensors already
    overwritten stay overwritten.  Values are copied as they are: the
    tensors of the checkpoint and of the module are taken to have the
    same dtype, torch's cast between dtypes is not modelled. *)
Definition copy_from (sd : gmap string Tensor) (k : string) (own : Tensor) : option Tensor :=
  match sd !! k with
  | Some t => Some (default own (incoming t own))
  | None => Some own
  end.

Definition shape_ok (sd : gmap string Tensor) (k : string) (own : Tensor) : bool :=
  match sd !! k with
  | Some t => bool_decide (is_Some (incoming t own))
  | None => true
  end.

Definition loadable (sd own : gmap string Tensor) : bool :=
  bool_decide (dom sd = dom own)
  && bool_decide (map_Forall (λ k t, shape_ok sd k t = true) own).

Definition load_state_dict (m : nn_Module) (sd : gmap string Tensor)
  : result unit * nn_Module :=
  let m' := set_state_dict (map_imap (copy_from sd) (state_dict m)) m in
  if loadable sd (state_dict m) then (Ok tt, m') else (Raise RuntimeError, m').

(** ** Configuration *)

Module Namespace.
(** The fields of [args] the adapter reads. *)
Record t := {
  opt : string;
  lr : scalar;
  nowand : bool;
  debug_mode : bool;
}.

Definition set_debug_mode (b : bool) (a : t) : t :=
  {| opt := opt a; lr := lr a; nowand := nowand a; debug_mode := b |}.
End Namespace.

(** ** Methods: state passing with exceptions *)

(** A method runs in a state [S] and leaves a result and a state.  An
    exception ends the method; what it had changed before stays changed. *)
Definition Method (S A : Type) : Type := S → result A * S.

Definition mreturn {S A} (a : A) : Method S A := λ s, (Ok a, s).

Definition raise {S A} (e : exn) : Method S A := λ s, (Raise e, s).

Definition bind {S A B} (m : Method S A) (k : A → Method S B) : Method S B :=
  λ s, match m s with
       | (Ok a, s') => k a s'
       | (Raise e, s') => (Raise e, s')
       end.

Definition gets {S A} (f : S → A) : Method S A := λ s, (Ok (f s), s).

Definition modify {S} (f : S → S) : Method S unit := λ s, (Ok tt, f s).

Notation "'let*' x := m 'in' k" := (bind m (λ x, k))
  (at level 10, x pattern, m at level 100, k at level 200).

(** ** The adapter and its surroundings *)

(** The instance attributes [__init__] sets. *)
Record ContinualModel := {
  net : nn_Module;
  loss : nn_Module;
  args : Namespace.t;
  transform : nn_Module;
  opt : Optimizer;
  device : string;
}.

Definition set_net (n : nn_Module) (m : ContinualModel) : ContinualModel :=
  {| net := n; loss := loss m; args := args m; transform := transform m;
     opt := opt m; device := device m |}.

Definition set_args (a : Namespace.t) (m : ContinualModel) : ContinualModel :=
  {| net := net m; loss := loss m; args := a; transform := transform m;
     opt := opt m; device := device m |}.

(** What the methods reach outside the adapter: the files of the local
    file system, each under the path string it was written to (two
    strings that name one file are not identified), with the paths that
    cannot be opened; the exception [torch.load] raises for contents
    that are no checkpoint, which depends on the bytes it finds; and the
    mappings handed to [wandb.log] so far, oldest first. *)
Record World (Blob : Type) := {
  files : gmap string Blob;
  inaccessible : gset string;
  unreadable : Blob → exn;
  wandb_log : list (gmap string PyVal);
}.
Arguments files {Blob} _.
Arguments inaccessible {Blob} _.
Arguments unreadable {Blob} _ _.
Arguments wandb_log {Blob} _.

Record State (Blob : Type) := {
  self : ContinualModel;
  world : World Blob;
}.
Arguments self {Blob} _.
Arguments world {Blob} _.

Definition set_self {Blob} (m : ContinualModel) (s : State Blob) : State Blob :=
  {| self := m; world := world s |}.

Definition set_files {Blob} (f : gmap string Blob) (s : State Blob) : State Blob :=
  {| self := self s;
     world := {| files := f; inaccessible := inaccessible (world s);
                 unreadable := unreadable (world s);
                 wandb_log := wandb_log (world s) |} |}.

Definition set_wandb_log {Blob} (l : list (gmap string PyVal)) (s : State Blob)
  : State Blob :=
  {| self := self s;
     world := {| files := files (world s); inaccessible := inaccessible (world s);
                 unreadable := unreadable (world s);
                 wandb_log := l |} |}.

(** Running [observe] on positional and keyword arguments: what it
    returns or raises, the
    local variables of its frame when it exits, and the state it leaves. *)
Record Outcome (Blob : Type) := {
  returned : result PyVal;
  f_locals : gmap string PyVal;
  after : State Blob;
}.
Arguments returned {Blob} _.
Arguments f_locals {Blob} _.
Arguments after {Blob} _.

(** What a class of adapters defines: the class attribute [NAME], if it
    assigns one, and the method [observe]. *)
Record Strategy (Blob : Type) := {
  NAME : option string;
  observe_method : list PyVal → gmap string PyVal → State Blob → Outcome Blob;
}.
Arguments NAME {Blob} _.
Arguments observe_method {Blob} _.

(** Binding the arguments of a call to the parameters [names] of a
    function without defaults: the positional arguments fill the first
    names, the keywords must be exactly the names that are left. *)
Definition bind_params (names : list string) (a : list PyVal) (kw : gmap string PyVal)
  : result (gmap string PyVal) :=
  if bool_decide (length a ≤ length names)%nat
     && bool_decide (dom kw = list_to_set (drop (length a) names))
  then Ok (list_to_map (zip names a) ∪ kw)
  else Raise TypeError.

(** The adapter as a value among the locals of its own methods. *)
Definition self_object : PyVal := PObject 0.

(** The adapter's state together with the calls of [self.observe] made
    so far, each with its positional and keyword arguments.  [observe]
    itself runs on the state and cannot touch this record of calls. *)
Record Machine (Blob : Type) := {
  state : State Blob;
  observed : list (list PyVal * gmap string PyVal);
}.
Arguments state {Blob} _.
Arguments observed {Blob} _.

(** A method of the adapter run inside the machine. *)
Definition lift {Blob A} (m : Method (State Blob) A) : Method (Machine Blob) A :=
  λ mc, let '(r, s) := m (state mc) in (r, {| state := s; observed := observed mc |}).

(** Something that can be called with positional and keyword arguments;
    besides its result it shows the locals of its frame when it exits,
    which is what a profiling hook sees. *)
Definition Callable (Blob : Type) : Type :=
  list PyVal → gmap string PyVal → Machine Blob
  → result PyVal * gmap string PyVal * Machine Blob.

(** [f(args, kwargs)] as an expression. *)
Definition call {Blob} (f : Callable Blob) (a : list PyVal) (kw : gmap string PyVal)
  : Method (Machine Blob) PyVal :=
  λ mc, let '(r, _, mc') := f a kw mc in (r, mc').

(** The bound method [self.observe]: calling it is recorded, then the
    class's [observe] runs on the state. *)
Definition bound_observe {Blob} (cls : Strategy Blob) : Callable Blob :=
  λ a kw mc,
    let o := observe_method cls a kw (state mc) in
    (returned o, f_locals o,
     {| state := after o; observed := observed mc ++ [(a, kw)] |}).

(** Modelled from the spec: [utils.magic.persistent_locals], which is
    not among the sources.  It wraps a function; calling the wrapper
    calls the function with the same arguments, records the final values
    of the local variables of that call in [locals], and returns the
    function's own result.  A failure of the call is not masked. *)
Record persistent_locals (Blob : Type) := {
  func : Callable Blob;
  locals : gmap string PyVal;
}.
Arguments func {Blob} _.
Arguments locals {Blob} _.

(** Modelled from the spec: [persistent_locals(f)], the wrapper around
    [f] with nothing captured yet. *)
Definition persistent_locals_new {Blob} (f : Callable Blob) : persistent_locals Blob :=
  {| func := f; locals := ∅ |}.

(** Modelled from the spec: calling the wrapper.  The function is called
    once on the arguments of the call; its result is returned together
    with the wrapper now holding the locals of that call, and an
    exception of the function is raised again. *)
Definition persistent_locals_call {Blob} (pl : persistent_locals Blob)
    (a : list PyVal) (kw : gmap string PyVal)
  : Method (Machine Blob) (PyVal * persistent_locals Blob) :=
  λ mc,
    let '(r, fr, mc') := func pl a kw mc in
    match r with
    | Ok v => (Ok (v, {| func := func pl; locals := fr |}), mc')
    | Raise e => (Raise e, mc')
    end.

(** The names [autolog_wandb] keeps:
    [k.startswith('_wandb_') or k.startswith('loss')]. *)
Definition logged_name (k : string) : bool :=
  String.prefix "_wandb_" k || String.prefix "loss" k.

(** The value logged for [v]:
    [v.item() if isinstance(v, torch.Tensor) and v.dim() == 0 else v].
    A zero-dimensional tensor always has its element, so [item] answers
    wherever it is asked here. *)
Definition logged_value (v : PyVal) : PyVal :=
  match v with
  | PTensor t =>
      if Nat.eqb (dim t) 0
      then match item t with Some x => PNum x | None => v end
      else v
  | _ => v
  end.

(** The dictionary comprehension of [autolog_wandb]. *)
Definition logged (locals : gmap string PyVal) : gmap string PyVal :=
  logged_value <$> filter (λ kv, logged_name kv.1 = true) locals.

Section Adapter.

Context {Blob : Type}.

(** What the module takes from its surroundings. *)

(** Whether [import wandb] succeeded when the module was loaded: the
    name [wandb] is then bound and ['wandb' in sys.modules] holds. *)
Variable wandb_imported : bool.

(** [utils.conf.get_device], which is not among the sources. *)
Variable get_device : unit → string.

(** Whether the constructor of an optimizer class refuses its arguments
    (torch rejects an empty parameter list and a negative learning
    rate with a [ValueError]). *)
Variable torch_rejects : optimizer_class → list string → scalar → bool.

(** The serialization behind [torch.save] and [torch.load]. *)
Variable pickle : gmap string Tensor → Blob.
Variable unpickle : Blob → option (gmap string Tensor).

#[local] Abbreviation State := (State Blob).
#[local] Abbreviation Machine := (Machine Blob).
#[local] Abbreviation Strategy := (Strategy Blob).

(** [cls(params, lr=lr)] for an optimizer class [cls]. *)
Definition new_optimizer (c : optimizer_class) (params : list string) (lr : scalar)
  : result Optimizer :=
  if torch_rejects c params lr then Raise ValueError
  else Ok {| optim_class := c; optim_params := params; optim_lr := lr |}.

(** [ContinualModel.__init__], for an instance of the class [cls]. *)
Definition __init__ (cls : Strategy) (backbone loss : nn_Module)
    (args : Namespace.t) (transform : nn_Module) : result ContinualModel :=
  match optimizer_dict !! Namespace.opt args with
  | None => Raise (KeyError (Namespace.opt args))
  | Some c =>
      match new_optimizer c (parameters backbone) (Namespace.lr args) with
      | Raise e => Raise e
      | Ok o =>
          let self := {| net := backbone; loss := loss; args := args;
                         transform := transform; opt := o;
                         device := get_device tt |} in
          match NAME cls with
          | None => Raise (AttributeError "NAME")
          | Some n =>
              if String.eqb n ""
              then Raise (NotImplementedError
                     "Please specify the name and the compatibility of the model.")
              else Ok self
          end
      end
  end.

(** [ContinualModel.forward] *)
Definition forward (x : PyVal) : Method State PyVal :=
  λ s, let '(r, n) := call_module (net (self s)) x in (r, set_self (set_net n (self s)) s).

(** [ContinualModel.observe], the method of the base class. *)
Definition observe (a : list PyVal) (kw : gmap string PyVal) (s : State)
  : Outcome Blob :=
  match bind_params ["cur_data"; "next_data"] a kw with
  | Raise e => {| returned := Raise e; f_locals := ∅; after := s |}
  | Ok bound =>
      {| returned := Raise (NotImplementedError "");
         f_locals := <["self" := self_object]> bound;
         after := s |}
  end.

(** [wandb.log(d)] *)
Definition wandb_log_call (d : gmap string PyVal) : Method State unit :=
  if wandb_imported
  then modify (λ s, set_wandb_log (wandb_log (world s) ++ [d]) s)
  else raise (NameError "wandb").

(** [ContinualModel.autolog_wandb] *)
Definition autolog_wandb (locals : gmap string PyVal) : Method State unit :=
  let* a := gets (λ s, args (self s)) in
  if negb (Namespace.nowand a) && negb (Namespace.debug_mode a)
  then wandb_log_call (logged locals)
  else mreturn tt.

(** [ContinualModel.meta_observe] *)
Definition meta_observe (cls : Strategy) (a : list PyVal) (kw : gmap string PyVal)
  : Method Machine PyVal :=
  let* cfg := gets (λ mc, args (self (state mc))) in
  if wandb_imported && negb (Namespace.nowand cfg)
  then
    let pl := persistent_locals_new (bound_observe cls) in
    let* (ret, pl) := persistent_locals_call pl a kw in
    let* _ := lift (autolog_wandb (locals pl)) in
    mreturn ret
  else
    let* ret := call (bound_observe cls) a kw in
    mreturn ret.

(** [torch.save(obj, path)].  torch opens the file with a writer of
    its own, which raises [RuntimeError] where the path cannot be
    opened. *)
Definition torch_save (obj : gmap string Tensor) (path : string) : Method State unit :=
  λ s, if bool_decide (path ∈ inaccessible (world s))
       then (Raise RuntimeError, s)
       else (Ok tt, set_files (<[path := pickle obj]> (files (world s))) s).

(** [torch.load(path)].  The file is opened by Python, which raises an
    [OSError] where there is none or it cannot be opened; contents that
    are no checkpoint raise what the world says for them. *)
Definition torch_load (path : string) : Method State (gmap string Tensor) :=
  λ s, if bool_decide (path ∈ inaccessible (world s))
       then (Raise (OSError path), s)
       else match files (world s) !! path with
            | None => (Raise (OSError path), s)
            | Some b =>
                match unpickle b with
                | Some sd => (Ok sd, s)
                | None => (Raise (unreadable (world s) b), s)
                end
            end.

(** [ContinualModel.save] *)
Definition save (save_path : string) : Method State unit :=
  let* sd := gets (λ s, state_dict (net (self s))) in
  torch_save sd save_path.

(** [ContinualModel.load] *)
Definition load (load_path : string) : Method State unit :=
  let* sd := torch_load load_path in
  λ s, let '(r, n) := load_state_dict (net (self s)) sd in
       (r, set_self (set_net n (self s)) s).

End Adapter.

(** Two networks have the same architecture when their tensors have the
    same names and, name by name, the same shapes. *)
Definition same_architecture (n1 n2 : nn_Module) : Prop :=
  dom (state_dict n1) = dom (state_dict n2)
  ∧ ∀ k t1 t2, state_dict n1 !! k = Some t1 → state_dict n2 !! k = Some t2
               → shape t1 = shape t2.

(** The state [s] with the debug flag of its configuration set to [b]. *)
Definition with_debug_mode {Blob} (b : bool) (s : State Blob) : State Blob :=
  set_self (set_args (Namespace.set_debug_mode b (args (self s))) (self s)) s.

Definition machine_with_debug_mode {Blob} (b : bool) (mc : Machine Blob) : Machine Blob :=
  {| state := with_debug_mode b (state mc); observed := observed mc |}.

(** The machine after [observe] ran once from the wrapper on [a], [kw]. *)
Definition observed_once {Blob} (s : State Blob) (a : list PyVal)
    (kw : gmap string PyVal) (mc : Machine Blob) : Machine Blob :=
  {| state := s; observed := observed mc ++ [(a, kw)] |}.

(** Whether [autolog_wandb] logs in the state [s]. *)
Definition logging_on {Blob} (s : State Blob) : bool :=
  negb (Namespace.nowand (args (self s))) && negb (Namespace.debug_mode (args (self s))).

(** The training step of [cls] neither reads nor writes the debug flag
    of the configuration: run from a state with the flag set to [b], it
    returns the same, has the same locals, and leaves the same state but
    for the flag, which is still [b]. *)
Definition ignores_debug_mode {Blob} (cls : Strategy Blob) : Prop :=
  ∀ a kw s b,
    returned (observe_method cls a kw (with_debug_mode b s))
    = returned (observe_method cls a kw s)
    ∧ f_locals (observe_method cls a kw (with_debug_mode b s))
      = f_locals (observe_method cls a kw s)
    ∧ after (observe_method cls a kw (with_debug_mode b s))
      = with_debug_mode b (after (observe_method cls a kw s)).

(** The optimizer of the adapter [m] is bound to the parameters of the
    adapter's own network. *)
Definition optimizer_bound (m : ContinualModel) : Prop :=
  optim_params (opt m) = parameters (net m).

(** The tensors [sd] fit the tensors [own] of a module: the same names
    and, name by name, the same shapes. *)
Definition fits (sd own : gmap string Tensor) : Prop :=
  dom sd = dom own
  ∧ ∀ k t t', sd !! k = Some t → own !! k = Some t' → shape t = shape t'.

(** ** Concrete objects *)

Module Examples.

(** A layer with a 1x2 weight and a bias of one element that returns its
    input and keeps its tensors. *)
Definition layer (w1 w2 b : Z) : nn_Module :=
  {| state_dict := <["weight" := TensorN 1 [2] [SFloat w1; SFloat w2]]>
                     (<["bias" := TensorN 1 [] [SFloat b]]> ∅);
     parameters := ["weight"; "bias"];
     forward_fn := λ sd x, (Ok x, sd) |}.

Definition trained : nn_Module := layer 4607182418800017408 4611686018427387904 0.
Definition fresh : nn_Module := layer 0 0 0.

(** A module without tensors, for the loss and the transform. *)
Definition plain : nn_Module :=
  {| state_dict := ∅; parameters := []; forward_fn := λ sd x, (Ok x, sd) |}.

(** The double nearest to 0.01. *)
Definition lr_001 : scalar := SFloat 4576918229304087675.

Definition config (name : string) (nowand debug : bool) : Namespace.t :=
  {| Namespace.opt := name; Namespace.lr := lr_001;
     Namespace.nowand := nowand; Namespace.debug_mode := debug |}.

(** torch refuses an empty parameter list. *)
Definition rejects_empty (c : optimizer_class) (params : list string) (lr : scalar)
  : bool :=
  match params with [] => true | _ => false end.

Definition cpu (_ : unit) : string := "cpu".

(** A strategy that keeps the base class's [observe]. *)
Definition no_override (name : option string) : Strategy (gmap string Tensor) :=
  {| NAME := name; observe_method := observe |}.

(** An [observe] that binds its two batches, stores the value [0.5] in
    the local variable [var] and returns it. *)
Definition half : PyVal := PNum (SFloat 4602678819172646912).

Definition observe_half (var : string) (a : list PyVal) (kw : gmap string PyVal)
    (s : State (gmap string Tensor)) : Outcome (gmap string Tensor) :=
  match bind_params ["cur_data"; "next_data"] a kw with
  | Raise e => {| returned := Raise e; f_locals := ∅; after := s |}
  | Ok bound =>
      {| returned := Ok half;
         f_locals := <[var := half]> (<["self" := self_object]> bound);
         after := s |}
  end.

Definition returns_half (var : string) : Strategy (gmap string Tensor) :=
  {| NAME := Some "half"; observe_method := observe_half var |}.

Definition adapter (cfg : Namespace.t) (n : nn_Module) : ContinualModel :=
  {| net := n; loss := plain; args := cfg; transform := plain;
     opt := {| optim_class := SGD; optim_params := parameters n;
               optim_lr := Namespace.lr cfg |};
     device := "cpu" |}.

Definition empty_world : World (gmap string Tensor) :=
  {| files := ∅; inaccessible := ∅; unreadable := λ _, UnpicklingError;
     wandb_log := [] |}.

Definition start (cfg : Namespace.t) (n : nn_Module) : State (gmap string Tensor) :=
  {| self := adapter cfg n; world := empty_world |}.

Definition machine (cfg : Namespace.t) (n : nn_Module) : Machine (gmap string Tensor) :=
  {| state := start cfg n; observed := [] |}.

(** What a file holds: the tensors of a checkpoint, or bytes for which
    [torch.load] raises the given exception. *)
Definition read_back (b : result (gmap string Tensor)) : option (gmap string Tensor) :=
  match b with Ok sd => Some sd | Raise _ => None end.

Definition raised_for (b : result (gmap string Tensor)) : exn :=
  match b with Ok _ => UnpicklingError | Raise e => e end.

(** A world where [ckpt.pt] holds the tensors of the trained layer,
    [notes.txt] holds text, [empty.pt] holds nothing, and [locked.pt]
    cannot be opened. *)
Definition disk : World (result (gmap string Tensor)) :=
  {| files := <["ckpt.pt" := Ok (state_dict trained)]>
                (<["notes.txt" := Raise UnpicklingError]>
                   (<["empty.pt" := Raise EOFError]> ∅));
     inaccessible := {["locked.pt"]};
     unreadable := raised_for;
     wandb_log := [] |}.

Definition on_disk (n : nn_Module) : State (result (gmap string Tensor)) :=
  {| self := adapter (config "sgd" false false) n; world := disk |}.

(** A network with a zero-dimensional tensor, and one that holds the
    same value as a vector of one element. *)
Definition scaled (x : Z) : nn_Module :=
  {| state_dict := {["scale" := Tensor0 (SFloat x)]};
     parameters := ["scale"];
     forward_fn := λ sd x, (Ok x, sd) |}.

Definition scaled_vector (x : Z) : nn_Module :=
  {| state_dict := {["scale" := TensorN 1 [] [SFloat x]]};
     parameters := ["scale"];
     forward_fn := λ sd x, (Ok x, sd) |}.

(** An [observe] that returns the debug flag of the configuration. *)
Definition observe_debug_flag (a : list PyVal) (kw : gmap string PyVal)
    (s : State (gmap string Tensor)) : Outcome (gmap string Tensor) :=
  match bind_params ["cur_data"; "next_data"] a kw with
  | Raise e => {| returned := Raise e; f_locals := ∅; after := s |}
  | Ok bound =>
      {| returned := Ok (PNum (SBool (Namespace.debug_mode (args (self s)))));
         f_locals := <["self" := self_object]> bound;
         after := s |}
  end.

Definition returns_debug_flag : Strategy (gmap string Tensor) :=
  {| NAME := Some "flag"; observe_method := observe_debug_flag |}.

(** An [observe] that counts its runs in the network's tensor [steps]
    and returns nothing. *)
Definition steps_of (sd : gmap string Tensor) : Z :=
  match sd !! "steps" with
  | Some (Tensor0 (SInt n)) => n
  | _ => 0
  end.

Definition count_step (n : nn_Module) : nn_Module :=
  set_state_dict (<["steps" := Tensor0 (SInt (steps_of (state_dict n) + 1))]> (state_dict n)) n.

Definition observe_counting (a : list PyVal) (kw : gmap string PyVal)
    (s : State (gmap string Tensor)) : Outcome (gmap string Tensor) :=
  match bind_params ["cur_data"; "next_data"] a kw with
  | Raise e => {| returned := Raise e; f_locals := ∅; after := s |}
  | Ok bound =>
      {| returned := Ok PNone;
         f_locals := <["self" := self_object]> bound;
         after := set_self (set_net (count_step (net (self s))) (self s)) s |}
  end.

Definition counting : Strategy (gmap string Tensor) :=
  {| NAME := Some "counting"; observe_method := observe_counting |}.

End Examples.

(** ** Construction *)

Lemma optimizer_dict_lookup (name : string) (c : optimizer_class) :
  optimizer_dict !! name = Some c
  ↔ (name = "sgd" ∧ c = SGD) ∨ (name = "adam" ∧ c = Adam).
Proof.
  unfold optimizer_dict. rewrite !lookup_insert, lookup_empty.
  repeat case_decide; subst;
    intuition (subst; try discriminate; try congruence; auto).
Qed.

Lemma init_unregistered {Blob} get_device torch_rejects (cls : Strategy Blob)
    backbone loss args transform :
  optimizer_dict !! Namespace.opt args = None →
  __init__ get_device torch_rejects cls backbone loss args transform
  = Raise (KeyError (Namespace.opt args)).
Proof. intros H. unfold __init__. by rewrite H. Qed.

Lemma init_registered {Blob} get_device torch_rejects (cls : Strategy Blob)
    backbone loss args transform c :
  optimizer_dict !! Namespace.opt args = Some c →
  torch_rejects c (parameters backbone) (Namespace.lr args) = false →
  __init__ get_device torch_rejects cls backbone loss args transform
  = match NAME cls with
    | None => Raise (AttributeError "NAME")
    | Some n =>
        if String.eqb n ""
        then Raise (NotImplementedError
               "Please specify the name and the compatibility of the model.")
        else Ok {| net := backbone; loss := loss; args := args;
                   transform := transform;
                   opt := {| optim_class := c; optim_params := parameters backbone;
                             optim_lr := Namespace.lr args |};
                   device := get_device tt |}
    end.
Proof.
  intros Hc Hacc. unfold __init__, new_optimizer. by rewrite Hc, Hacc.
Qed.

(** C1. Construction looks the configured optimizer name up in the
    registry, which holds exactly ['sgd'] and ['adam'].  For a registered
    name whose class accepts the network's parameters and the learning
    rate, and a strategy with a non-empty name, construction succeeds
    and the adapter's optimizer is of the registered class, bound to the
    parameters of the network, at the configured learning rate.  For a
    name that is not registered construction raises [KeyError] with that
    name. *)
Theorem init_selects_optimizer {Blob} get_device torch_rejects (cls : Strategy Blob)
    backbone loss args transform :
  (∀ c n,
      optimizer_dict !! Namespace.opt args = Some c →
      torch_rejects c (parameters backbone) (Namespace.lr args) = false →
      NAME cls = Some n → n ≠ "" →
      ∃ m, __init__ get_device torch_rejects cls backbone loss args transform = Ok m
           ∧ optim_class (opt m) = c
           ∧ optim_params (opt m) = parameters backbone
           ∧ optim_lr (opt m) = Namespace.lr args
           ∧ net m = backbone)
  ∧ (optimizer_dict !! Namespace.opt args = None →
     __init__ get_device torch_rejects cls backbone loss args transform
     = Raise (KeyError (Namespace.opt args)))
  ∧ optimizer_dict !! "sgd" = Some SGD
  ∧ optimizer_dict !! "adam" = Some Adam
  ∧ (∀ name, is_Some (optimizer_dict !! name) ↔ name = "sgd" ∨ name = "adam").
Proof.
  split; [|split; [|split; [|split]]].
  - intros c n Hc Hacc Hn Hne.
    rewrite (init_registered _ _ _ _ _ _ _ c Hc Hacc), Hn.
    destruct (String.eqb_spec n "") as [->|_]; [done|].
    eexists; repeat split; reflexivity.
  - apply init_unregistered.
  - by apply optimizer_dict_lookup; left.
  - by apply optimizer_dict_lookup; right.
  - intros name. split.
    + intros [c Hc]. apply optimizer_dict_lookup in Hc. tauto.
    + intros [->| ->]; eexists; apply optimizer_dict_lookup; eauto.
Qed.

(** The scenario of the specification: ['sgd'] at learning rate 0.01. *)
Lemma init_selects_optimizer_sgd :
  ∃ m, __init__ Examples.cpu Examples.rejects_empty (Examples.returns_half "loss")
         Examples.trained Examples.plain (Examples.config "sgd" false false)
         Examples.plain = Ok m
       ∧ optim_class (opt m) = SGD
       ∧ optim_params (opt m) = ["weight"; "bias"]
       ∧ optim_lr (opt m) = Examples.lr_001
       ∧ net m = Examples.trained.
Proof.
  apply (init_selects_optimizer Examples.cpu Examples.rejects_empty
           (Examples.returns_half "loss") Examples.trained Examples.plain
           (Examples.config "sgd" false false) Examples.plain) with (n := "half").
  - reflexivity.
  - reflexivity.
  - reflexivity.
  - discriminate.
Defined.

(** An empty name together with an unregistered optimizer: construction
    raises the [KeyError] of the registry and never reaches the check of
    the name. *)
Lemma init_empty_name_unregistered_optimizer :
  __init__ Examples.cpu Examples.rejects_empty (Examples.no_override (Some ""))
    Examples.trained Examples.plain (Examples.config "rmsprop" false false)
    Examples.plain
  = Raise (KeyError "rmsprop")
  ∧ ∀ msg,
      __init__ Examples.cpu Examples.rejects_empty (Examples.no_override (Some ""))
        Examples.trained Examples.plain (Examples.config "rmsprop" false false)
        Examples.plain
      ≠ Raise (NotImplementedError msg).
Proof.
  assert (optimizer_dict !! "rmsprop" = None) as Hnone by reflexivity.
  rewrite (init_unregistered _ _ _ _ _ (Examples.config "rmsprop" false false) _ Hnone).
  split; [reflexivity | discriminate].
Qed.

(** C7, as the code has it.  The name is checked after the optimizer is
    built.  Once the optimizer is built (registered name, arguments
    accepted), construction fails unless the strategy defines a
    non-empty name: with [NotImplementedError] for an empty name, with
    [AttributeError] where no name is defined.  With an unregistered
    optimizer name construction raises [KeyError] whatever the name. *)
Theorem init_checks_name_after_optimizer {Blob} get_device torch_rejects
    (cls : Strategy Blob) backbone loss args transform :
  (∀ c,
      optimizer_dict !! Namespace.opt args = Some c →
      torch_rejects c (parameters backbone) (Namespace.lr args) = false →
      (NAME cls = Some "" →
       __init__ get_device torch_rejects cls backbone loss args transform
       = Raise (NotImplementedError
                  "Please specify the name and the compatibility of the model."))
      ∧ (NAME cls = None →
         __init__ get_device torch_rejects cls backbone loss args transform
         = Raise (AttributeError "NAME"))
      ∧ (∀ m, __init__ get_device torch_rejects cls backbone loss args transform = Ok m →
              ∃ n, NAME cls = Some n ∧ n ≠ ""))
  ∧ (optimizer_dict !! Namespace.opt args = None →
     __init__ get_device torch_rejects cls backbone loss args transform
     = Raise (KeyError (Namespace.opt args))).
Proof.
  split; [|apply init_unregistered].
  intros c Hc Hacc. rewrite (init_registered _ _ _ _ _ _ _ c Hc Hacc).
  split; [|split].
  - by intros ->.
  - by intros ->.
  - intros m. destruct (NAME cls) as [n|]; [|discriminate].
    destruct (String.eqb_spec n "") as [->|Hne]; [discriminate|].
    intros _. by exists n.
Qed.

(** An empty name with the registered optimizer ['adam']. *)
Lemma init_checks_name_after_optimizer_adam :
  __init__ Examples.cpu Examples.rejects_empty (Examples.no_override (Some ""))
    Examples.trained Examples.plain (Examples.config "adam" false false)
    Examples.plain
  = Raise (NotImplementedError
             "Please specify the name and the compatibility of the model.").
Proof.
  apply (init_checks_name_after_optimizer Examples.cpu Examples.rejects_empty
           (Examples.no_override (Some "")) Examples.trained Examples.plain
           (Examples.config "adam" false false) Examples.plain) with (c := Adam).
  - reflexivity.
  - reflexivity.
  - reflexivity.
Defined.

(** ** The forward pass *)

Lemma set_state_dict_same (m : nn_Module) : set_state_dict (state_dict m) m = m.
Proof. by destruct m. Qed.

Lemma set_net_same (m : ContinualModel) : set_net (net m) m = m.
Proof. by destruct m. Qed.

Lemma set_self_same {Blob} (s : State Blob) : set_self (self s) s = s.
Proof. by destruct s. Qed.

(** C6. The forward pass returns what calling the network on the input
    returns.  Of the adapter's state only the network can differ
    afterwards, and it is left as its own call leaves it; the loss, the
    configuration, the transform, the optimizer, the device and the
    surroundings are untouched, and where the network keeps its tensors
    the state is exactly the one before. *)
Theorem forward_is_net_call {Blob} (x : PyVal) (s : State Blob) :
  (forward x s).1 = (call_module (net (self s)) x).1
  ∧ net (self (forward x s).2) = (call_module (net (self s)) x).2
  ∧ loss (self (forward x s).2) = loss (self s)
  ∧ args (self (forward x s).2) = args (self s)
  ∧ transform (self (forward x s).2) = transform (self s)
  ∧ opt (self (forward x s).2) = opt (self s)
  ∧ device (self (forward x s).2) = device (self s)
  ∧ world (forward x s).2 = world s
  ∧ ((forward_fn (net (self s)) (state_dict (net (self s))) x).2
       = state_dict (net (self s))
     → (forward x s).2 = s).
Proof.
  unfold forward, call_module.
  destruct (forward_fn (net (self s)) (state_dict (net (self s))) x) as [r sd].
  simpl. repeat split; try reflexivity.
  intros ->. by rewrite set_state_dict_same, set_net_same, set_self_same.
Qed.

(** A layer that keeps its tensors: the forward pass leaves the state
    as it was. *)
Lemma forward_is_net_call_layer :
  (forward (PObject 1)
     (Examples.start (Examples.config "sgd" false false) Examples.trained)).2
  = Examples.start (Examples.config "sgd" false false) Examples.trained.
Proof.
  destruct (forward_is_net_call (PObject 1)
              (Examples.start (Examples.config "sgd" false false) Examples.trained))
    as (_ & _ & _ & _ & _ & _ & _ & _ & Hpure).
  apply Hpure. reflexivity.
Defined.

(** ** The abstract training step *)

Lemma observe_never_returns {Blob} (a : list PyVal) (kw : gmap string PyVal)
    (s : State Blob) :
  after (observe a kw s) = s
  ∧ (returned (observe a kw s) = Raise (NotImplementedError "")
     ∨ returned (observe a kw s) = Raise TypeError).
Proof.
  unfold observe.
  destruct (bind_params ["cur_data"; "next_data"] a kw) as [bound|e] eqn:Hbind;
    simpl; [by auto|].
  unfold bind_params in Hbind. case_match; [discriminate|].
  injection Hbind as <-. by auto.
Qed.

Lemma bind_two_positional (p q : string) (x y : PyVal) :
  bind_params [p; q] [x; y] ∅ = Ok (<[p := x]> (<[q := y]> ∅)).
Proof.
  unfold bind_params. simpl.
  rewrite bool_decide_eq_true_2 by apply dom_empty_L.
  by rewrite (right_id_L ∅ (∪)).
Qed.

Lemma observe_positional {Blob} (cur_data next_data : PyVal) (s : State Blob) :
  returned (observe [cur_data; next_data] ∅ s) = Raise (NotImplementedError "").
Proof. unfold observe. by rewrite bind_two_positional. Qed.

(** ** The instrumented training step *)

(** The two branches of [meta_observe], run to the end. *)
Lemma meta_observe_run {Blob} wandb_imported (cls : Strategy Blob)
    (a : list PyVal) (kw : gmap string PyVal) (mc : Machine Blob) :
  meta_observe wandb_imported cls a kw mc
  = let o := observe_method cls a kw (state mc) in
    if wandb_imported && negb (Namespace.nowand (args (self (state mc))))
    then match returned o with
         | Raise e => (Raise e, observed_once (after o) a kw mc)
         | Ok v =>
             if logging_on (after o)
             then (Ok v,
                   observed_once
                     (set_wandb_log (wandb_log (world (after o)) ++ [logged (f_locals o)])
                        (after o)) a kw mc)
             else (Ok v, observed_once (after o) a kw mc)
         end
    else (returned o, observed_once (after o) a kw mc).
Proof.
  unfold meta_observe, bind, gets, call, persistent_locals_call,
    persistent_locals_new, bound_observe, observed_once; simpl.
  destruct wandb_imported; simpl.
  - destruct (Namespace.nowand (args (self (state mc)))); simpl.
    + by destruct (returned (observe_method cls a kw (state mc))).
    + destruct (returned (observe_method cls a kw (state mc))) as [v|e]; [|done].
      unfold lift, autolog_wandb, wandb_log_call, bind, gets, modify, mreturn, logging_on.
      simpl.
      by destruct (negb (Namespace.nowand (args (self (after (observe_method cls a kw (state mc))))))
                   && negb (Namespace.debug_mode (args (self (after (observe_method cls a kw (state mc))))))).
  - by destruct (returned (observe_method cls a kw (state mc))).
Qed.

Lemma meta_observe_result {Blob} wandb_imported (cls : Strategy Blob)
    (a : list PyVal) (kw : gmap string PyVal) (mc : Machine Blob) :
  (meta_observe wandb_imported cls a kw mc).1
  = returned (observe_method cls a kw (state mc)).
Proof.
  rewrite meta_observe_run. simpl.
  destruct (wandb_imported && negb (Namespace.nowand (args (self (state mc)))));
    [|reflexivity].
  destruct (returned (observe_method cls a kw (state mc))); [|reflexivity].
  by destruct (logging_on (after (observe_method cls a kw (state mc)))).
Qed.

(** C3. [meta_observe] returns, or raises, exactly what the training
    step does on the same arguments and state, whether or not wandb was
    imported and whatever the no-log flag.  It leaves the adapter and the
    files as the training step leaves them; the log of wandb is the one
    the training step leaves, with at most one mapping appended; and
    without wandb, or with the no-log flag set, the whole state is the
    one the training step leaves. *)
Theorem meta_observe_returns_observe {Blob} wandb_imported (cls : Strategy Blob)
    (a : list PyVal) (kw : gmap string PyVal) (mc : Machine Blob) :
  let o := observe_method cls a kw (state mc) in
  let r := meta_observe wandb_imported cls a kw mc in
  r.1 = returned o
  ∧ self (state r.2) = self (after o)
  ∧ files (world (state r.2)) = files (world (after o))
  ∧ inaccessible (world (state r.2)) = inaccessible (world (after o))
  ∧ (wandb_log (world (state r.2)) = wandb_log (world (after o))
     ∨ ∃ d : gmap string PyVal,
         wandb_log (world (state r.2)) = (wandb_log (world (after o)) ++ [d])%list)
  ∧ (wandb_imported && negb (Namespace.nowand (args (self (state mc)))) = false
     → state r.2 = after o).
Proof.
  cbv zeta. rewrite meta_observe_run. cbv zeta.
  generalize (observe_method cls a kw (state mc)) as o. intros o.
  destruct (wandb_imported && negb (Namespace.nowand (args (self (state mc))))).
  - destruct (returned o) as [v|e]; [destruct (logging_on (after o))|];
      simpl; (repeat split); try reflexivity; try (intros; discriminate); eauto.
  - simpl. repeat split; eauto.
Qed.

(** Without wandb the wrapper leaves exactly the state of the training
    step. *)
Lemma meta_observe_returns_observe_direct :
  let mc := Examples.machine (Examples.config "sgd" false false) Examples.trained in
  state (meta_observe false (Examples.returns_half "loss") [PObject 1; PObject 2] ∅ mc).2
  = after (observe_method (Examples.returns_half "loss") [PObject 1; PObject 2] ∅
             (state mc)).
Proof.
  intros mc.
  destruct (meta_observe_returns_observe false (Examples.returns_half "loss")
              [PObject 1; PObject 2] ∅ mc) as (_ & _ & _ & _ & _ & Hdirect).
  apply Hdirect. reflexivity.
Defined.

(** C8. Every call of [meta_observe] runs the training step exactly
    once, on the positional and keyword arguments it was given and from
    the state at entry, in the instrumented branch and in the direct one
    alike.  One call of [self.observe] with these arguments is recorded;
    the result is the one of that run and the adapter and the files are
    as that run leaves them, with no second step on top; and the step is
    consulted nowhere else: a strategy whose step does the same on these
    arguments from this state gives the same run of the wrapper,
    whatever it does on other arguments or from other states. *)
Theorem meta_observe_calls_observe_once {Blob} wandb_imported (cls : Strategy Blob)
    (a : list PyVal) (kw : gmap string PyVal) (mc : Machine Blob) :
  let o := observe_method cls a kw (state mc) in
  let r := meta_observe wandb_imported cls a kw mc in
  observed r.2 = observed mc ++ [(a, kw)]
  ∧ r.1 = returned o
  ∧ self (state r.2) = self (after o)
  ∧ files (world (state r.2)) = files (world (after o))
  ∧ (∀ cls' : Strategy Blob,
        observe_method cls' a kw (state mc) = o →
        meta_observe wandb_imported cls' a kw mc = r).
Proof.
  cbv zeta. split; [|split; [|split; [|split]]].
  - rewrite meta_observe_run. simpl.
    destruct (wandb_imported && negb (Namespace.nowand (args (self (state mc)))));
      [|reflexivity].
    destruct (returned (observe_method cls a kw (state mc))); [|reflexivity].
    by destruct (logging_on (after (observe_method cls a kw (state mc)))).
  - apply meta_observe_result.
  - rewrite meta_observe_run. cbv zeta.
    generalize (observe_method cls a kw (state mc)) as o. intros o.
    destruct (wandb_imported && negb (Namespace.nowand (args (self (state mc)))));
      [|reflexivity].
    destruct (returned o); [|reflexivity]. by destruct (logging_on (after o)).
  - rewrite meta_observe_run. cbv zeta.
    generalize (observe_method cls a kw (state mc)) as o. intros o.
    destruct (wandb_imported && negb (Namespace.nowand (args (self (state mc)))));
      [|reflexivity].
    destruct (returned o); [|reflexivity]. by destruct (logging_on (after o)).
  - intros cls' Hsame. rewrite !meta_observe_run. cbv zeta. by rewrite Hsame.
Qed.

(** A training step that counts its runs in the network: after the
    wrapper the count is one, with and without wandb, and a strategy
    with the same step under another name gives the same run. *)
Lemma meta_observe_calls_observe_once_counting :
  let mc := Examples.machine (Examples.config "sgd" false false) Examples.trained in
  Examples.steps_of (state_dict (net (self (state
    (meta_observe true Examples.counting [PObject 1; PObject 2] ∅ mc).2)))) = 1%Z
  ∧ Examples.steps_of (state_dict (net (self (state
      (meta_observe false Examples.counting [PObject 1; PObject 2] ∅ mc).2)))) = 1%Z
  ∧ observed (meta_observe true Examples.counting [PObject 1; PObject 2] ∅ mc).2
    = [([PObject 1; PObject 2], ∅)]
  ∧ meta_observe true
      {| NAME := None; observe_method := Examples.observe_counting |}
      [PObject 1; PObject 2] ∅ mc
    = meta_observe true Examples.counting [PObject 1; PObject 2] ∅ mc.
Proof.
  intros mc.
  destruct (meta_observe_calls_observe_once true Examples.counting
              [PObject 1; PObject 2] ∅ mc) as (Hcalls & _ & Hself & _ & Hsame).
  destruct (meta_observe_calls_observe_once false Examples.counting
              [PObject 1; PObject 2] ∅ mc) as (_ & _ & Hself' & _).
  split; [|split; [|split]].
  - rewrite Hself. simpl. unfold Examples.observe_counting.
    rewrite bind_two_positional. reflexivity.
  - rewrite Hself'. simpl. unfold Examples.observe_counting.
    rewrite bind_two_positional. reflexivity.
  - exact Hcalls.
  - apply Hsame. reflexivity.
Defined.

(** An override that returns the debug flag: the two runs of the wrapper
    that differ only in the flag return different values, in the
    instrumented branch and in the direct one. *)
Lemma override_reading_debug_mode :
  let mc := Examples.machine (Examples.config "sgd" false false) Examples.trained in
  (meta_observe true Examples.returns_debug_flag [PObject 1; PObject 2] ∅
     (machine_with_debug_mode true mc)).1
  = Ok (PNum (SBool true))
  ∧ (meta_observe true Examples.returns_debug_flag [PObject 1; PObject 2] ∅ mc).1
    = Ok (PNum (SBool false))
  ∧ (meta_observe true Examples.returns_debug_flag [PObject 1; PObject 2] ∅
       (machine_with_debug_mode true mc)).1
    ≠ (meta_observe true Examples.returns_debug_flag [PObject 1; PObject 2] ∅ mc).1
  ∧ (meta_observe false Examples.returns_debug_flag [PObject 1; PObject 2] ∅
       (machine_with_debug_mode true mc)).1
    ≠ (meta_observe false Examples.returns_debug_flag [PObject 1; PObject 2] ∅ mc).1.
Proof.
  intros mc. rewrite !meta_observe_result. simpl.
  unfold Examples.observe_debug_flag. rewrite bind_two_positional. simpl.
  split; [reflexivity|]. split; [reflexivity|]. split; discriminate.
Qed.

Lemma observe_half_ignores_debug_mode (var : string) :
  ignores_debug_mode (Examples.returns_half var).
Proof.
  intros a kw s b. simpl. unfold Examples.observe_half.
  by destruct (bind_params ["cur_data"; "next_data"] a kw).
Qed.

(** C9, as the code has it.  For a training step that neither reads nor
    writes the debug flag, two runs of [meta_observe] that differ only
    in that flag return the same value, record the same call, and leave
    the same adapter (but for the flag) and the same files.  They differ
    only in the log of wandb: the flag decides, together with wandb's
    presence and the no-log flag, whether the one mapping of the step is
    appended.  A step that reads the flag may return what it likes. *)
Theorem meta_observe_debug_mode_only_logging {Blob} wandb_imported
    (cls : Strategy Blob) (a : list PyVal) (kw : gmap string PyVal)
    (mc : Machine Blob) (b : bool) :
  ignores_debug_mode cls →
  let o := observe_method cls a kw (state mc) in
  let r := meta_observe wandb_imported cls a kw mc in
  let r' := meta_observe wandb_imported cls a kw (machine_with_debug_mode b mc) in
  r'.1 = r.1
  ∧ observed r'.2 = observed r.2
  ∧ self (state r'.2) = self (with_debug_mode b (state r.2))
  ∧ files (world (state r'.2)) = files (world (state r.2))
  ∧ wandb_log (world (state r'.2))
    = wandb_log (world (after o))
      ++ match returned o with
         | Ok _ =>
             if wandb_imported
                && negb (Namespace.nowand (args (self (state mc))))
                && negb (Namespace.nowand (args (self (after o))))
                && negb b
             then [logged (f_locals o)]
             else []
         | Raise _ => []
         end.
Proof.
  intros Hblind. cbv zeta. rewrite !meta_observe_run. cbv zeta.
  unfold machine_with_debug_mode at 1 2 3 4 5; simpl.
  destruct (Hblind a kw (state mc) b) as (-> & -> & ->).
  generalize (observe_method cls a kw (state mc)) as o. intros o.
  unfold logging_on; simpl.
  destruct wandb_imported; simpl;
    [destruct (Namespace.nowand (args (self (state mc)))); simpl|];
    destruct (returned o); simpl; rewrite ?app_nil_r; try done.
  destruct (Namespace.nowand (args (self (after o)))); simpl;
    [|destruct (Namespace.debug_mode (args (self (after o)))); destruct b];
    simpl; rewrite ?app_nil_r; done.
Qed.

(** The step that returns [0.5] and keeps it in [loss], run in debug
    mode: the same value, and nothing logged. *)
Lemma meta_observe_debug_mode_only_logging_half :
  let mc := Examples.machine (Examples.config "sgd" false false) Examples.trained in
  (meta_observe true (Examples.returns_half "loss") [PObject 1; PObject 2] ∅
     (machine_with_debug_mode true mc)).1
  = (meta_observe true (Examples.returns_half "loss") [PObject 1; PObject 2] ∅ mc).1
  ∧ wandb_log (world (state
      (meta_observe true (Examples.returns_half "loss") [PObject 1; PObject 2] ∅
         (machine_with_debug_mode true mc)).2))
    = [].
Proof.
  intros mc.
  destruct (meta_observe_debug_mode_only_logging true (Examples.returns_half "loss")
              [PObject 1; PObject 2] ∅ mc true
              (observe_half_ignores_debug_mode "loss"))
    as (Hret & _ & _ & _ & Hlog).
  split; [exact Hret|].
  rewrite Hlog. simpl. unfold Examples.observe_half.
  rewrite bind_two_positional. reflexivity.
Defined.

(** C5. On the base class [observe] raises [NotImplementedError] for any
    two batches, passed by position or, more generally, in any way that
    binds its two parameters; no call of it returns a value, and it
    leaves the state as it was.  Nothing catches the error: through
    [meta_observe] it reaches the caller in both branches, and nothing
    is logged. *)
Theorem observe_not_implemented {Blob} wandb_imported (name : option string)
    (cur_data next_data : PyVal) (s : State Blob) (mc : Machine Blob) :
  returned (observe [cur_data; next_data] ∅ s) = Raise (NotImplementedError "")
  ∧ (∀ a kw bound,
        bind_params ["cur_data"; "next_data"] a kw = Ok bound →
        returned (observe a kw s) = Raise (NotImplementedError ""))
  ∧ (∀ a kw v, returned (observe a kw s) ≠ Ok v)
  ∧ (∀ a kw, after (observe a kw s) = s)
  ∧ (meta_observe wandb_imported {| NAME := name; observe_method := observe |}
       [cur_data; next_data] ∅ mc).1
    = Raise (NotImplementedError "")
  ∧ state (meta_observe wandb_imported {| NAME := name; observe_method := observe |}
             [cur_data; next_data] ∅ mc).2
    = state mc.
Proof.
  split; [apply observe_positional|].
  split; [intros a kw bound Hb; unfold observe; by rewrite Hb|].
  split; [intros a kw v Hv;
          destruct (observe_never_returns a kw s) as [_ [H|H]]; congruence|].
  split; [intros a kw; apply observe_never_returns|].
  rewrite meta_observe_run. simpl.
  rewrite observe_positional.
  destruct (observe_never_returns [cur_data; next_data] ∅ (state mc)) as [-> _].
  by destruct (wandb_imported && negb (Namespace.nowand (args (self (state mc))))).
Qed.

(** The second batch passed by keyword. *)
Lemma observe_not_implemented_keyword :
  returned (observe [PObject 1] {["next_data" := PObject 2]}
              (Examples.start (Examples.config "sgd" false false) Examples.trained))
  = Raise (NotImplementedError "").
Proof.
  destruct (observe_not_implemented false None (PObject 1) (PObject 2)
              (Examples.start (Examples.config "sgd" false false) Examples.trained)
              (Examples.machine (Examples.config "sgd" false false) Examples.trained))
    as (_ & Hbound & _).
  eapply Hbound. vm_compute. reflexivity.
Defined.

(** ** The logging hook *)

Lemma logged_lookup (locals : gmap string PyVal) (k : string) :
  logged locals !! k
  = if logged_name k then logged_value <$> locals !! k else None.
Proof.
  unfold logged. rewrite lookup_fmap, map_lookup_filter.
  destruct (locals !! k) as [v|]; simpl; [|by destruct (logged_name k)].
  by destruct (logged_name k).
Qed.

Lemma dim_0_inv (t : Tensor) : dim t = 0%nat → ∃ x, t = Tensor0 x.
Proof. destruct t; [eauto|discriminate]. Qed.

Lemma autolog_wandb_run {Blob} wandb_imported (locals : gmap string PyVal)
    (s : State Blob) :
  autolog_wandb wandb_imported locals s
  = if logging_on s
    then if wandb_imported
         then (Ok tt, set_wandb_log (wandb_log (world s) ++ [logged locals]) s)
         else (Raise (NameError "wandb"), s)
    else (Ok tt, s).
Proof.
  unfold autolog_wandb, wandb_log_call, bind, gets, modify, raise, mreturn, logging_on.
  destruct (negb (Namespace.nowand (args (self s)))
            && negb (Namespace.debug_mode (args (self s)))); [|done].
  by destruct wandb_imported.
Qed.

(** The loss is kept in a local variable called [l]: with wandb imported
    and logging switched on, the training step returns [0.5] and the
    mapping handed to [wandb.log] is empty, so no key of it is derived
    from ['loss']. *)
Lemma loss_in_other_local_not_logged :
  let r := meta_observe true (Examples.returns_half "l") [PObject 1; PObject 2] ∅
             (Examples.machine (Examples.config "sgd" false false) Examples.trained) in
  r.1 = Ok Examples.half
  ∧ wandb_log (world (state r.2)) = [∅]
  ∧ ¬ ∃ (d : gmap string PyVal) (k : string) (v : PyVal),
        d ∈ wandb_log (world (state r.2)) ∧ String.prefix "loss" k = true
        ∧ d !! k = Some v.
Proof.
  cbv zeta. rewrite meta_observe_run. cbv zeta.
  simpl. unfold Examples.observe_half. rewrite bind_two_positional. simpl.
  assert (logged (<["l" := Examples.half]>
                    (<["self" := self_object]>
                       (<["cur_data" := PObject 1]> (<["next_data" := PObject 2]> ∅))))
          = ∅) as ->.
  { apply map_eq. intros k. rewrite logged_lookup, lookup_empty.
    destruct (logged_name k) eqn:Hk; [|done].
    rewrite !lookup_insert, lookup_empty.
    repeat case_decide; subst; try discriminate; done. }
  split; [done|]. split; [done|].
  intros (d & k & v & Hd & _ & Hv).
  apply list_elem_of_singleton in Hd. subst d. by rewrite lookup_empty in Hv.
Qed.

(** C4, as the code has it.  [autolog_wandb] hands to [wandb.log]
    exactly the captured locals whose names begin with ['_wandb_'] or
    ['loss'], a zero-dimensional tensor replaced by its element and every
    other value as it is, and logs nothing when the no-log flag or the
    debug flag is set.  Through [meta_observe], with wandb imported and
    logging on, a local of the training step whose name begins with
    ['loss'] is in the logged mapping under that name with its value (or
    the scalar for it); the value the step returns is not what is
    logged. *)
Theorem autolog_wandb_logs_named_locals {Blob} wandb_imported
    (locals : gmap string PyVal) (s : State Blob)
    (cls : Strategy Blob) (a : list PyVal) (kw : gmap string PyVal)
    (mc : Machine Blob) :
  (Namespace.nowand (args (self s)) = true ∨ Namespace.debug_mode (args (self s)) = true
   → autolog_wandb wandb_imported locals s = (Ok tt, s))
  ∧ (wandb_imported = true →
     Namespace.nowand (args (self s)) = false →
     Namespace.debug_mode (args (self s)) = false →
     autolog_wandb wandb_imported locals s
     = (Ok tt, set_wandb_log (wandb_log (world s) ++ [logged locals]) s))
  ∧ (∀ k, logged locals !! k
          = if String.prefix "_wandb_" k || String.prefix "loss" k
            then logged_value <$> locals !! k
            else None)
  ∧ (∀ t, dim t = 0%nat →
          ∃ x, item t = Some x ∧ logged_value (PTensor t) = PNum x)
  ∧ (∀ v, (∀ t, v = PTensor t → dim t ≠ 0%nat) → logged_value v = v)
  ∧ (wandb_imported = true →
     Namespace.nowand (args (self (state mc))) = false →
     ∀ L, returned (observe_method cls a kw (state mc)) = Ok L →
       let o := observe_method cls a kw (state mc) in
       let r := meta_observe wandb_imported cls a kw mc in
       r.1 = Ok L
       ∧ (logging_on (after o) = false →
          wandb_log (world (state r.2)) = wandb_log (world (after o)))
       ∧ (logging_on (after o) = true →
          wandb_log (world (state r.2))
          = wandb_log (world (after o)) ++ [logged (f_locals o)]
          ∧ ∀ k v, String.prefix "loss" k = true → f_locals o !! k = Some v →
                   logged (f_locals o) !! k = Some (logged_value v))).
Proof.
  rewrite !autolog_wandb_run. unfold logging_on at 1 2.
  split; [|split; [|split; [|split; [|split]]]].
  - intros [-> | ->]; [done|]. by rewrite andb_false_r.
  - by intros -> -> ->.
  - apply logged_lookup.
  - intros t Ht. apply dim_0_inv in Ht as [x ->]. by exists x.
  - intros [| | |t|] Hv; try reflexivity.
    specialize (Hv t eq_refl). simpl.
    destruct (dim t) eqn:Hd; [done|reflexivity].
  - intros -> Hnowand L HL. cbv zeta. rewrite meta_observe_run. cbv zeta.
    rewrite Hnowand, HL. simpl.
    destruct (logging_on (after (observe_method cls a kw (state mc)))); simpl.
    + split; [done|]. split; [discriminate|]. intros _. split; [done|].
      intros k v Hk Hv. rewrite logged_lookup, Hv. unfold logged_name.
      by rewrite Hk, orb_true_r.
    + split; [done|]. split; [done|discriminate].
Qed.

(** The loss kept in a local variable called [loss] is logged under that
    name. *)
Lemma autolog_wandb_logs_named_locals_loss :
  let mc := Examples.machine (Examples.config "sgd" false false) Examples.trained in
  let o := observe_method (Examples.returns_half "loss") [PObject 1; PObject 2] ∅
             (state mc) in
  (meta_observe true (Examples.returns_half "loss") [PObject 1; PObject 2] ∅ mc).1
  = Ok Examples.half
  ∧ wandb_log (world (state
      (meta_observe true (Examples.returns_half "loss") [PObject 1; PObject 2] ∅ mc).2))
    = [logged (f_locals o)]
  ∧ logged (f_locals o) !! "loss" = Some Examples.half.
Proof.
  intros mc o.
  assert (returned o = Ok Examples.half) as Hret.
  { subst o. simpl. unfold Examples.observe_half.
    by rewrite bind_two_positional. }
  assert (f_locals o !! "loss" = Some Examples.half) as Hloss.
  { subst o. simpl. unfold Examples.observe_half.
    rewrite bind_two_positional. simpl. by rewrite lookup_insert_eq. }
  assert (logging_on (after o) = true) as Hon.
  { subst o. simpl. unfold Examples.observe_half.
    by rewrite bind_two_positional. }
  assert (wandb_log (world (after o)) = []) as Hlog.
  { subst o. simpl. unfold Examples.observe_half.
    by rewrite bind_two_positional. }
  destruct (autolog_wandb_logs_named_locals true ∅ (state mc)
              (Examples.returns_half "loss") [PObject 1; PObject 2] ∅ mc)
    as (_ & _ & _ & _ & _ & Hmeta).
  destruct (Hmeta eq_refl eq_refl Examples.half Hret) as (Hr & _ & Hlogged).
  destruct (Hlogged Hon) as [Hw Hk].
  split; [exact Hr|]. split.
  - fold o in Hw. rewrite Hw, Hlog. reflexivity.
  - exact (Hk "loss" Examples.half eq_refl Hloss).
Defined.

(** ** Checkpoints *)

Lemma save_run {Blob} (pickle : gmap string Tensor → Blob) (save_path : string)
    (s : State Blob) :
  save pickle save_path s
  = if bool_decide (save_path ∈ inaccessible (world s))
    then (Raise RuntimeError, s)
    else (Ok tt,
          set_files (<[save_path := pickle (state_dict (net (self s)))]> (files (world s))) s).
Proof. reflexivity. Qed.

(** C10. [save] leaves the adapter as it was: its network with every
    tensor, its optimizer and its configuration.  Of the surroundings it
    writes the file at the given path and nothing else; when the path
    cannot be opened it raises and changes nothing at all. *)
Theorem save_keeps_adapter {Blob} (pickle : gmap string Tensor → Blob)
    (save_path : string) (s : State Blob) :
  let r := save pickle save_path s in
  self r.2 = self s
  ∧ wandb_log (world r.2) = wandb_log (world s)
  ∧ inaccessible (world r.2) = inaccessible (world s)
  ∧ (∀ p, p ≠ save_path → files (world r.2) !! p = files (world s) !! p)
  ∧ (r.1 = Ok tt ↔ save_path ∉ inaccessible (world s))
  ∧ (r.1 = Ok tt →
     files (world r.2) !! save_path = Some (pickle (state_dict (net (self s)))))
  ∧ (r.1 ≠ Ok tt → r.2 = s).
Proof.
  cbv zeta. rewrite save_run. case_bool_decide as Hp; simpl.
  - repeat split; done.
  - repeat split; try done.
    + intros p Hne. by rewrite lookup_insert_ne.
    + intros _. by rewrite lookup_insert_eq.
Qed.

(** The checkpoint of a trained layer is the only file written. *)
Lemma save_keeps_adapter_layer :
  let s := Examples.start (Examples.config "sgd" false false) Examples.trained in
  files (world (save id "ckpt.pt" s).2) !! "ckpt.pt" = Some (state_dict Examples.trained)
  ∧ files (world (save id "ckpt.pt" s).2) !! "other.pt" = None.
Proof.
  intros s.
  destruct (save_keeps_adapter id "ckpt.pt" s) as (_ & _ & _ & Hothers & _ & Hfile & _).
  split.
  - apply Hfile. reflexivity.
  - rewrite (Hothers "other.pt") by discriminate. reflexivity.
Defined.

Lemma incoming_same_shape (t own : Tensor) :
  shape t = shape own → incoming t own = Some t.
Proof. intros Hs. unfold incoming. by rewrite decide_True. Qed.

Lemma incoming_shape (t own t' : Tensor) :
  incoming t own = Some t' → shape t' = shape own.
Proof.
  unfold incoming. case_decide as Hs; [by intros [= <-]|].
  destruct own as [y|d ds ys]; [|discriminate].
  destruct t as [x|d ds xs]; [discriminate|].
  destruct ds; [|discriminate]. destruct xs as [|x xs]; [discriminate|].
  by intros [= <-].
Qed.

(** Loading the tensors of a network into a network of the same
    architecture succeeds and replaces every tensor. *)
Lemma load_state_dict_same_architecture (src dst : nn_Module) :
  same_architecture src dst →
  load_state_dict dst (state_dict src) = (Ok tt, set_state_dict (state_dict src) dst).
Proof.
  intros [Hdom Hshape]. unfold load_state_dict.
  assert (loadable (state_dict src) (state_dict dst) = true) as ->.
  { unfold loadable. apply andb_true_intro. split.
    - by apply bool_decide_eq_true_2.
    - apply bool_decide_eq_true_2. intros k own Hown. unfold shape_ok.
      destruct (state_dict src !! k) as [t|] eqn:Ht; [|done].
      apply bool_decide_eq_true_2.
      rewrite (incoming_same_shape t own) by eauto. by eexists. }
  f_equal. f_equal. apply map_eq. intros k. rewrite map_lookup_imap.
  destruct (state_dict dst !! k) as [own|] eqn:Hown; simpl.
  - unfold copy_from.
    destruct (state_dict src !! k) as [t|] eqn:Ht.
    + by rewrite (incoming_same_shape t own) by eauto.
    + apply not_elem_of_dom in Ht. rewrite Hdom in Ht.
      apply not_elem_of_dom in Ht. congruence.
  - apply not_elem_of_dom in Hown. rewrite <- Hdom in Hown.
    by apply not_elem_of_dom in Hown.
Qed.

(** C2. After [save] has written the tensors of a network to a path,
    [load] from that path into an adapter whose network is freshly built
    with the same architecture succeeds, and every tensor of that
    network is then equal to the one saved, provided what [torch.save]
    wrote for these tensors is read back by [torch.load]. *)
Theorem save_then_load {Blob} (pickle : gmap string Tensor → Blob)
    (unpickle : Blob → option (gmap string Tensor))
    (path : string) (s s' : State Blob) (other : ContinualModel) :
  unpickle (pickle (state_dict (net (self s)))) = Some (state_dict (net (self s))) →
  save pickle path s = (Ok tt, s') →
  same_architecture (net (self s)) (net other) →
  ∃ s'', load unpickle path (set_self other s') = (Ok tt, s'')
         ∧ state_dict (net (self s'')) = state_dict (net (self s))
         ∧ ∀ k, state_dict (net (self s'')) !! k = state_dict (net (self s)) !! k.
Proof.
  intros Hpickle Hsave Harch. rewrite save_run in Hsave.
  case_bool_decide as Hp; [discriminate|]. injection Hsave as <-.
  unfold load, bind, torch_load. simpl.
  rewrite bool_decide_eq_false_2 by done.
  rewrite lookup_insert_eq, Hpickle.
  change (self (set_self other ?x)) with other.
  rewrite (load_state_dict_same_architecture _ _ Harch).
  eexists. split; [reflexivity|]. simpl. by split.
Qed.

(** A trained layer saved to [ckpt.pt] and loaded into a fresh one. *)
Lemma save_then_load_layer :
  ∃ s'', load Some "ckpt.pt"
           (set_self
              (Examples.adapter (Examples.config "sgd" false false) Examples.fresh)
              (save id "ckpt.pt"
                 (Examples.start (Examples.config "sgd" false false) Examples.trained)).2)
         = (Ok tt, s'')
         ∧ state_dict (net (self s'')) = state_dict Examples.trained
         ∧ ∀ k, state_dict (net (self s'')) !! k = state_dict Examples.trained !! k.
Proof.
  apply (save_then_load id Some "ckpt.pt"
           (Examples.start (Examples.config "sgd" false false) Examples.trained)).
  - reflexivity.
  - reflexivity.
  - split.
    + reflexivity.
    + intros k t1 t2. simpl. rewrite !lookup_insert, !lookup_empty.
      repeat case_decide; intros H1 H2; simplify_eq; reflexivity.
Defined.

(** * Further properties of the adapter *)

(** ** Construction *)

(** Construction returns an adapter exactly when the optimizer name is
    registered, the optimizer class accepts the network's parameters and
    the learning rate, and the strategy has a non-empty name; the adapter
    then holds the four arguments as given, the optimizer built from
    them and the device of the host. *)
Theorem init_succeeds_iff {Blob} get_device torch_rejects (cls : Strategy Blob)
    backbone loss args transform (m : ContinualModel) :
  __init__ get_device torch_rejects cls backbone loss args transform = Ok m
  ↔ ∃ c n,
      optimizer_dict !! Namespace.opt args = Some c
      ∧ torch_rejects c (parameters backbone) (Namespace.lr args) = false
      ∧ NAME cls = Some n ∧ n ≠ ""
      ∧ m = {| net := backbone; loss := loss; args := args; transform := transform;
               opt := {| optim_class := c; optim_params := parameters backbone;
                         optim_lr := Namespace.lr args |};
               device := get_device tt |}.
Proof.
  split.
  - unfold __init__, new_optimizer.
    destruct (optimizer_dict !! Namespace.opt args) as [c|]; [|discriminate].
    destruct (torch_rejects c (parameters backbone) (Namespace.lr args)) eqn:Hrej;
      [discriminate|].
    destruct (NAME cls) as [n|]; [|discriminate].
    destruct (String.eqb_spec n "") as [->|Hne]; [discriminate|].
    intros [= <-]. by exists c, n.
  - intros (c & n & Hc & Hrej & Hn & Hne & ->).
    rewrite (init_registered _ _ _ _ _ _ _ c Hc Hrej), Hn.
    by destruct (String.eqb_spec n "").
Qed.

(** The optimizer is built before the name is looked at: when the class
    refuses the network's parameters or the learning rate, construction
    raises [ValueError] for every strategy, named or not. *)
Theorem init_rejected_arguments {Blob} get_device torch_rejects (cls : Strategy Blob)
    backbone loss args transform (c : optimizer_class) :
  optimizer_dict !! Namespace.opt args = Some c →
  torch_rejects c (parameters backbone) (Namespace.lr args) = true →
  __init__ get_device torch_rejects cls backbone loss args transform = Raise ValueError.
Proof.
  intros Hc Hrej. unfold __init__, new_optimizer. by rewrite Hc, Hrej.
Qed.

(** A network without parameters and a strategy without a name: the
    refusal of the empty parameter list is what is raised. *)
Lemma init_rejected_arguments_plain :
  __init__ Examples.cpu Examples.rejects_empty (Examples.no_override None)
    Examples.plain Examples.plain (Examples.config "adam" false false) Examples.plain
  = Raise ValueError.
Proof.
  apply (init_rejected_arguments Examples.cpu Examples.rejects_empty
           (Examples.no_override None) Examples.plain Examples.plain
           (Examples.config "adam" false false) Examples.plain Adam).
  - reflexivity.
  - reflexivity.
Defined.

(** ** Checkpoints *)

Lemma load_run {Blob} (unpickle : Blob → option (gmap string Tensor))
    (load_path : string) (s : State Blob) :
  load unpickle load_path s
  = if bool_decide (load_path ∈ inaccessible (world s))
    then (Raise (OSError load_path), s)
    else match files (world s) !! load_path with
         | None => (Raise (OSError load_path), s)
         | Some b =>
             match unpickle b with
             | None => (Raise (unreadable (world s) b), s)
             | Some sd =>
                 ((load_state_dict (net (self s)) sd).1,
                  set_self (set_net (load_state_dict (net (self s)) sd).2 (self s)) s)
             end
         end.
Proof.
  unfold load, bind, torch_load.
  case_bool_decide; [done|].
  destruct (files (world s) !! load_path) as [b|]; [|done].
  destruct (unpickle b) as [sd|]; [|done].
  by destruct (load_state_dict (net (self s)) sd).
Qed.

Lemma fits_loadable (sd own : gmap string Tensor) :
  fits sd own → loadable sd own = true.
Proof.
  intros [Hdom Hshape]. unfold loadable.
  apply andb_true_intro. split; apply bool_decide_eq_true_2; [done|].
  intros k t' Hown. simpl. unfold shape_ok.
  destruct (sd !! k) as [t|] eqn:Ht; [|done].
  apply bool_decide_eq_true_2.
  rewrite (incoming_same_shape t t') by eauto. by eexists.
Qed.


Lemma copied_lookup (sd own : gmap string Tensor) (k : string) :
  map_imap (copy_from sd) own !! k
  = match own !! k with
    | Some t' =>
        match sd !! k with
        | Some t => Some (default t' (incoming t t'))
        | None => Some t'
        end
    | None => None
    end.
Proof.
  rewrite map_lookup_imap. destruct (own !! k) as [t'|]; [|done].
  simpl. unfold copy_from. by destruct (sd !! k).
Qed.

Lemma copied_fits (sd own : gmap string Tensor) :
  fits sd own → map_imap (copy_from sd) own = sd.
Proof.
  intros [Hdom Hshape]. apply map_eq. intros k. rewrite copied_lookup.
  destruct (own !! k) as [t'|] eqn:Hown.
  - destruct (sd !! k) as [t|] eqn:Ht.
    + by rewrite (incoming_same_shape t t') by eauto.
    + apply not_elem_of_dom in Ht. rewrite Hdom in Ht.
      apply not_elem_of_dom in Ht. congruence.
  - apply not_elem_of_dom in Hown. rewrite <- Hdom in Hown.
    by apply not_elem_of_dom in Hown.
Qed.

Lemma copied_keeps_architecture (sd own : gmap string Tensor) :
  fits (map_imap (copy_from sd) own) own.
Proof.
  split.
  - apply set_eq. intros k. rewrite !elem_of_dom, copied_lookup.
    destruct (own !! k) as [t'|]; [|done].
    destruct (sd !! k) as [t|]; by split; eauto.
  - intros k t t' Ht Hown. rewrite copied_lookup, Hown in Ht.
    destruct (sd !! k) as [t0|]; [|by simplify_eq].
    destruct (incoming t0 t') as [t1|] eqn:Hin; simpl in Ht; simplify_eq; [|done].
    by apply (incoming_shape t0).
Qed.

(** When the checkpoint cannot be read, [load] raises before the network
    is touched and leaves the whole state as it was: with [OSError] for
    a path that cannot be opened or holds no file, and for a file that
    is no checkpoint with the exception [torch.load] raises for its
    contents, whichever that is. *)
Theorem load_unreadable_keeps_state {Blob}
    (unpickle : Blob → option (gmap string Tensor))
    (load_path : string) (s : State Blob) :
  (load_path ∈ inaccessible (world s) ∨ files (world s) !! load_path = None
   → load unpickle load_path s = (Raise (OSError load_path), s))
  ∧ (∀ b, load_path ∉ inaccessible (world s) →
          files (world s) !! load_path = Some b → unpickle b = None →
          load unpickle load_path s = (Raise (unreadable (world s) b), s)).
Proof.
  rewrite load_run. split.
  - intros [Hin|Hnone].
    + by rewrite bool_decide_eq_true_2.
    + rewrite Hnone. by case_bool_decide.
  - intros b Hout Hb Hbad. rewrite bool_decide_eq_false_2 by done.
    by rewrite Hb, Hbad.
Qed.

(** A locked path, a path without a file, a file of text and an empty
    file. *)
Lemma load_unreadable_keeps_state_disk :
  load Examples.read_back "locked.pt" (Examples.on_disk Examples.fresh)
  = (Raise (OSError "locked.pt"), Examples.on_disk Examples.fresh)
  ∧ load Examples.read_back "missing.pt" (Examples.on_disk Examples.fresh)
    = (Raise (OSError "missing.pt"), Examples.on_disk Examples.fresh)
  ∧ load Examples.read_back "notes.txt" (Examples.on_disk Examples.fresh)
    = (Raise UnpicklingError, Examples.on_disk Examples.fresh)
  ∧ load Examples.read_back "empty.pt" (Examples.on_disk Examples.fresh)
    = (Raise EOFError, Examples.on_disk Examples.fresh).
Proof.
  split; [|split; [|split]].
  - apply (load_unreadable_keeps_state Examples.read_back "locked.pt"
             (Examples.on_disk Examples.fresh)).
    left. vm_compute. reflexivity.
  - apply (load_unreadable_keeps_state Examples.read_back "missing.pt"
             (Examples.on_disk Examples.fresh)).
    right. reflexivity.
  - apply (load_unreadable_keeps_state Examples.read_back "notes.txt"
             (Examples.on_disk Examples.fresh)) with (b := Raise UnpicklingError).
    + vm_compute. intros H. discriminate H.
    + reflexivity.
    + reflexivity.
  - apply (load_unreadable_keeps_state Examples.read_back "empty.pt"
             (Examples.on_disk Examples.fresh)) with (b := Raise EOFError).
    + vm_compute. intros H. discriminate H.
    + reflexivity.
    + reflexivity.
Defined.

(** Whatever the file holds and whether it succeeds or raises, [load]
    changes nothing but the values of the network's tensors: the names
    and shapes of the tensors, the parameters and the computation of the
    network, the other attributes of the adapter and the surroundings are
    those from before. *)
Theorem load_keeps_architecture {Blob}
    (unpickle : Blob → option (gmap string Tensor))
    (load_path : string) (s : State Blob) :
  let s' := (load unpickle load_path s).2 in
  same_architecture (net (self s')) (net (self s))
  ∧ parameters (net (self s')) = parameters (net (self s))
  ∧ forward_fn (net (self s')) = forward_fn (net (self s))
  ∧ loss (self s') = loss (self s)
  ∧ args (self s') = args (self s)
  ∧ transform (self s') = transform (self s)
  ∧ opt (self s') = opt (self s)
  ∧ device (self s') = device (self s)
  ∧ world s' = world s.
Proof.
  cbv zeta. rewrite load_run.
  assert (same_architecture (net (self s)) (net (self s))) as Hrefl by (split; congruence).
  case_bool_decide; [done|].
  destruct (files (world s) !! load_path) as [b|]; [|done].
  destruct (unpickle b) as [sd|]; [|done].
  unfold load_state_dict.
  destruct (loadable sd (state_dict (net (self s)))); simpl;
    (split; [apply copied_keeps_architecture|done]).
Qed.



(** A scalar that the checkpoint holds as a vector of one element is
    read into the zero-dimensional tensor of the network. *)
Lemma load_vector_into_scalar :
  let s := set_self
             (Examples.adapter (Examples.config "sgd" false false) (Examples.scaled 0))
             (save id "scale.pt"
                (Examples.start (Examples.config "sgd" false false)
                   (Examples.scaled_vector 4607182418800017408))).2 in
  (load Some "scale.pt" s).1 = Ok tt
  ∧ state_dict (net (self (load Some "scale.pt" s).2)) !! "scale"
    = Some (Tensor0 (SFloat 4607182418800017408)).
Proof.
  cbv zeta. rewrite load_run. split; reflexivity.
Qed.

Lemma fits_refl (sd : gmap string Tensor) : fits sd sd.
Proof. split; [done|]. intros k t t' Ht Ht'. congruence. Qed.

(** Restoring an adapter from its own checkpoint is the identity: after
    [save] to a path that can be opened, [load] from that path into the
    same adapter succeeds and leaves the state exactly as [save] left
    it, provided what [torch.save] wrote is read back by [torch.load]. *)
Theorem save_then_load_same_adapter {Blob} (pickle : gmap string Tensor → Blob)
    (unpickle : Blob → option (gmap string Tensor))
    (path : string) (s : State Blob) :
  unpickle (pickle (state_dict (net (self s)))) = Some (state_dict (net (self s))) →
  path ∉ inaccessible (world s) →
  load unpickle path (save pickle path s).2 = (Ok tt, (save pickle path s).2)
  ∧ self (save pickle path s).2 = self s.
Proof.
  intros Hpickle Hout. rewrite save_run, bool_decide_eq_false_2 by done.
  rewrite load_run. simpl. rewrite bool_decide_eq_false_2 by done.
  rewrite lookup_insert_eq, Hpickle. unfold load_state_dict.
  pose proof (fits_refl (state_dict (net (self s)))) as Hfits.
  rewrite (fits_loadable _ _ Hfits), (copied_fits _ _ Hfits). simpl.
  split; [|done]. f_equal. unfold set_self, set_files. simpl.
  by rewrite set_state_dict_same, set_net_same.
Qed.

(** The trained layer saved and restored in place. *)
Lemma save_then_load_same_adapter_layer :
  let s := Examples.start (Examples.config "sgd" false false) Examples.trained in
  load Some "ckpt.pt" (save id "ckpt.pt" s).2 = (Ok tt, (save id "ckpt.pt" s).2)
  ∧ self (save id "ckpt.pt" s).2 = self s.
Proof.
  intros s. apply (save_then_load_same_adapter id Some "ckpt.pt" s).
  - reflexivity.
  - vm_compute. intros H. discriminate H.
Defined.

Lemma save_locked {Blob} (pickle : gmap string Tensor → Blob) (p : string)
    (s : State Blob) :
  p ∈ inaccessible (world s) → save pickle p s = (Raise RuntimeError, s).
Proof. intros Hp. rewrite save_run. by rewrite bool_decide_eq_true_2. Qed.

Lemma save_written {Blob} (pickle : gmap string Tensor → Blob) (p : string)
    (s : State Blob) :
  p ∉ inaccessible (world s) →
  save pickle p s
  = (Ok tt, set_files (<[p := pickle (state_dict (net (self s)))]> (files (world s))) s).
Proof. intros Hp. rewrite save_run. by rewrite bool_decide_eq_false_2. Qed.

(** Saving twice to a path is saving once, and saves to two different
    paths leave the same state in either order. *)
Theorem save_twice {Blob} (pickle : gmap string Tensor → Blob)
    (p q : string) (s : State Blob) :
  save pickle p (save pickle p s).2 = save pickle p s
  ∧ (p ≠ q →
     (save pickle q (save pickle p s).2).2 = (save pickle p (save pickle q s).2).2).
Proof.
  split.
  - destruct (decide (p ∈ inaccessible (world s))) as [Hp|Hp].
    + rewrite (save_locked pickle p s Hp). simpl. by apply save_locked.
    + rewrite (save_written pickle p s Hp). simpl.
      rewrite (save_written pickle p (set_files _ s)) by done.
      unfold set_files. simpl. by rewrite insert_insert_eq.
  - intros Hne.
    destruct (decide (p ∈ inaccessible (world s))) as [Hp|Hp];
      destruct (decide (q ∈ inaccessible (world s))) as [Hq|Hq].
    + rewrite (save_locked pickle p s Hp). simpl.
      rewrite (save_locked pickle q s Hq). simpl.
      by rewrite (save_locked pickle p s Hp).
    + rewrite (save_locked pickle p s Hp). simpl.
      rewrite (save_written pickle q s Hq). simpl.
      by rewrite (save_locked pickle p (set_files _ s)).
    + rewrite (save_written pickle p s Hp). simpl.
      rewrite (save_locked pickle q s Hq). simpl.
      rewrite (save_locked pickle q (set_files _ s)) by done.
      by rewrite (save_written pickle p s Hp).
    + rewrite (save_written pickle p s Hp). simpl.
      rewrite (save_written pickle q s Hq). simpl.
      rewrite (save_written pickle q (set_files _ s)) by done.
      rewrite (save_written pickle p (set_files _ s)) by done.
      unfold set_files. simpl. by rewrite insert_insert_ne.
Qed.

(** Two checkpoints of the trained layer, written in either order. *)
Lemma save_twice_layer :
  let s := Examples.start (Examples.config "sgd" false false) Examples.trained in
  (save id "b.pt" (save id "a.pt" s).2).2 = (save id "a.pt" (save id "b.pt" s).2).2.
Proof.
  intros s. apply (save_twice id "a.pt" "b.pt" s). discriminate.
Defined.

(** ** The optimizer stays bound to the network *)

(** Construction binds the optimizer to the parameters of the adapter's
    network, and the forward pass, [save] and [load] keep the optimizer
    itself and this binding, whether they return or raise;
    [meta_observe] keeps the binding whenever the training step does. *)
Theorem optimizer_stays_bound {Blob} :
  (∀ get_device torch_rejects (cls : Strategy Blob) backbone loss args transform m,
      __init__ get_device torch_rejects cls backbone loss args transform = Ok m →
      optimizer_bound m)
  ∧ (∀ x (s : State Blob),
        opt (self (forward x s).2) = opt (self s)
        ∧ (optimizer_bound (self s) → optimizer_bound (self (forward x s).2)))
  ∧ (∀ (pickle : gmap string Tensor → Blob) p (s : State Blob),
        opt (self (save pickle p s).2) = opt (self s)
        ∧ (optimizer_bound (self s) → optimizer_bound (self (save pickle p s).2)))
  ∧ (∀ (unpickle : Blob → option (gmap string Tensor)) p (s : State Blob),
        opt (self (load unpickle p s).2) = opt (self s)
        ∧ (optimizer_bound (self s) → optimizer_bound (self (load unpickle p s).2)))
  ∧ (∀ wandb_imported (cls : Strategy Blob) a kw (mc : Machine Blob),
        optimizer_bound (self (after (observe_method cls a kw (state mc)))) →
        optimizer_bound (self (state (meta_observe wandb_imported cls a kw mc).2))).
Proof.
  split; [|split; [|split; [|split]]].
  - intros get_device torch_rejects cls backbone loss args transform m Hm.
    unfold __init__, new_optimizer in Hm.
    destruct (optimizer_dict !! Namespace.opt args) as [c|]; [|discriminate].
    destruct (torch_rejects c (parameters backbone) (Namespace.lr args));
      [discriminate|].
    destruct (NAME cls) as [n|]; [|discriminate].
    destruct (String.eqb n ""); [discriminate|]. by injection Hm as <-.
  - intros x s. unfold forward, call_module, optimizer_bound.
    by destruct (forward_fn (net (self s)) (state_dict (net (self s))) x).
  - intros pickle p s. rewrite save_run. by case_bool_decide.
  - intros unpickle p s. rewrite load_run. unfold optimizer_bound.
    case_bool_decide; [done|].
    destruct (files (world s) !! p) as [b|]; [|done].
    destruct (unpickle b) as [sd|]; [|done].
    unfold load_state_dict.
    by destruct (loadable sd (state_dict (net (self s)))).
  - intros wandb_imported cls a kw mc. rewrite meta_observe_run. cbv zeta.
    destruct (wandb_imported && negb (Namespace.nowand (args (self (state mc)))));
      [|done].
    destruct (returned (observe_method cls a kw (state mc))); [|done].
    by destruct (logging_on (after (observe_method cls a kw (state mc)))).
Qed.

(** The adapter of the trained layer is bound, and stays bound through a
    forward pass and a [load] that fails. *)
Lemma optimizer_stays_bound_layer :
  optimizer_bound
    (self (forward (PObject 1)
             (Examples.start (Examples.config "sgd" false false) Examples.trained)).2)
  ∧ optimizer_bound
      (self (load Some "missing.pt"
               (Examples.start (Examples.config "sgd" false false) Examples.trained)).2).
Proof.
  destruct (@optimizer_stays_bound (gmap string Tensor))
    as (_ & Hforward & _ & Hload & _).
  split.
  - apply Hforward. reflexivity.
  - apply Hload. reflexivity.
Defined.

(** ** What is logged *)

Lemma append_cons (c : Ascii.ascii) (p rest : string) :
  String c p +:+ rest = String c (p +:+ rest).
Proof. reflexivity. Qed.

Lemma prefix_append (p k : string) :
  String.prefix p k = true ↔ ∃ rest, k = p +:+ rest.
Proof.
  revert k. induction p as [|c p IH]; intros k; simpl.
  - split; [intros _; by exists k|by destruct k].
  - destruct k as [|c' k]; simpl.
    + split; [done|]. intros [rest Hrest]. by rewrite append_cons in Hrest.
    + destruct (Ascii.ascii_dec c c') as [->|Hne].
      * rewrite IH. split; intros [rest Hrest]; exists rest;
          rewrite append_cons in *; congruence.
      * split; [done|]. intros [rest Hrest]. rewrite append_cons in Hrest.
        congruence.
Qed.

(** The names of the logged mapping are the names of the locals that
    are ['_wandb_'] or ['loss'] followed by anything, nothing or more. *)
Theorem logged_names (locals : gmap string PyVal) (k : string) :
  k ∈ dom (logged locals)
  ↔ k ∈ dom locals ∧ ∃ rest, k = "_wandb_" +:+ rest ∨ k = "loss" +:+ rest.
Proof.
  rewrite !elem_of_dom, logged_lookup. unfold logged_name.
  rewrite <- (fmap_is_Some logged_value (locals !! k)).
  destruct (String.prefix "_wandb_" k) eqn:Hw; simpl.
  - apply prefix_append in Hw as [rest ->]. split; [|tauto].
    intros H. split; [done|]. exists rest. by left.
  - destruct (String.prefix "loss" k) eqn:Hl.
    + apply prefix_append in Hl as [rest ->]. split; [|tauto].
      intros H. split; [done|]. exists rest. by right.
    + split; [by intros [? ?]|].
      intros [_ [rest [Hk|Hk]]].
      * assert (String.prefix "_wandb_" k = true) by (apply prefix_append; eauto).
        congruence.
      * assert (String.prefix "loss" k = true) by (apply prefix_append; eauto).
        congruence.
Qed.

Lemma logged_value_plain (v : PyVal) (t : Tensor) :
  logged_value v = PTensor t → dim t ≠ 0%nat ∧ v = PTensor t.
Proof.
  destruct v as [| | |t'|]; try discriminate. simpl.
  destruct t' as [x|d ds xs]; simpl; [discriminate|].
  intros [= <-]. by split.
Qed.

Lemma logged_value_again (v : PyVal) : logged_value (logged_value v) = logged_value v.
Proof.
  destruct v as [| | |t|]; try reflexivity. by destruct t.
Qed.

(** No zero-dimensional tensor is ever handed to [wandb.log]: a tensor
    in the logged mapping has a dimension and is the local's own value.
    Filtering and converting what was already logged changes nothing. *)
Theorem logged_has_no_scalar_tensor (locals : gmap string PyVal) :
  (∀ k t, logged locals !! k = Some (PTensor t) →
          dim t ≠ 0%nat ∧ locals !! k = Some (PTensor t))
  ∧ logged (logged locals) = logged locals.
Proof.
  split.
  - intros k t. rewrite logged_lookup.
    destruct (logged_name k); [|discriminate].
    destruct (locals !! k) as [v|]; [|discriminate]. simpl.
    intros [= Hv]. apply logged_value_plain in Hv as [Hdim ->]. by split.
  - apply map_eq. intros k. rewrite !logged_lookup.
    destruct (logged_name k); [|done].
    destruct (locals !! k) as [v|]; [|done]. simpl.
    by rewrite logged_value_again.
Qed.

(** A loss kept per sample, as a vector of two elements, is logged as
    the tensor it is. *)
Lemma logged_has_no_scalar_tensor_vector :
  let v := TensorN 2 [] [SFloat 0; SFloat 4602678819172646912] in
  dim v ≠ 0%nat
  ∧ ({["loss_per_sample" := PTensor v]} : gmap string PyVal) !! "loss_per_sample"
    = Some (PTensor v).
Proof.
  intros v.
  destruct (logged_has_no_scalar_tensor {["loss_per_sample" := PTensor v]}) as [Hkeep _].
  apply Hkeep. rewrite logged_lookup. reflexivity.
Defined.

(** Called where wandb could not be imported, with logging switched on,
    [autolog_wandb] raises [NameError] and changes nothing; with the
    no-log flag or the debug flag set it returns without looking for
    wandb. *)
Theorem autolog_wandb_without_wandb {Blob} (locals : gmap string PyVal)
    (s : State Blob) :
  (Namespace.nowand (args (self s)) = false →
   Namespace.debug_mode (args (self s)) = false →
   autolog_wandb false locals s = (Raise (NameError "wandb"), s))
  ∧ (Namespace.nowand (args (self s)) = true
     ∨ Namespace.debug_mode (args (self s)) = true →
     autolog_wandb false locals s = (Ok tt, s)).
Proof.
  rewrite autolog_wandb_run. unfold logging_on. split.
  - by intros -> ->.
  - intros [-> | ->]; [done|]. by rewrite andb_false_r.
Qed.

(** The adapter of the trained layer, logging on and in debug mode. *)
Lemma autolog_wandb_without_wandb_layer :
  autolog_wandb false ∅
    (Examples.start (Examples.config "sgd" false false) Examples.trained)
  = (Raise (NameError "wandb"),
     Examples.start (Examples.config "sgd" false false) Examples.trained)
  ∧ autolog_wandb false ∅
      (Examples.start (Examples.config "sgd" false true) Examples.trained)
    = (Ok tt, Examples.start (Examples.config "sgd" false true) Examples.trained).
Proof.
  split.
  - apply (autolog_wandb_without_wandb ∅
             (Examples.start (Examples.config "sgd" false false) Examples.trained));
      reflexivity.
  - apply (autolog_wandb_without_wandb ∅
             (Examples.start (Examples.config "sgd" false true) Examples.trained)).
    right. reflexivity.
Defined.

(** ** Which steps are logged *)

(** A training step that raises is never logged: [meta_observe] raises
    the same exception and leaves the state exactly as the step left
    it, in both branches. *)
Theorem meta_observe_failed_step {Blob} wandb_imported (cls : Strategy Blob)
    (a : list PyVal) (kw : gmap string PyVal) (mc : Machine Blob) (e : exn) :
  returned (observe_method cls a kw (state mc)) = Raise e →
  (meta_observe wandb_imported cls a kw mc).1 = Raise e
  ∧ state (meta_observe wandb_imported cls a kw mc).2
    = after (observe_method cls a kw (state mc)).
Proof.
  intros He. rewrite meta_observe_run. cbv zeta. rewrite He.
  by destruct (wandb_imported && negb (Namespace.nowand (args (self (state mc))))).
Qed.

(** A step called with one batch only, with wandb imported and logging
    on. *)
Lemma meta_observe_failed_step_one_batch :
  let mc := Examples.machine (Examples.config "sgd" false false) Examples.trained in
  (meta_observe true (Examples.returns_half "loss") [PObject 1] ∅ mc).1 = Raise TypeError
  ∧ state (meta_observe true (Examples.returns_half "loss") [PObject 1] ∅ mc).2
    = after (observe_method (Examples.returns_half "loss") [PObject 1] ∅ (state mc)).
Proof.
  intros mc.
  apply (meta_observe_failed_step true (Examples.returns_half "loss") [PObject 1] ∅ mc).
  vm_compute. reflexivity.
Defined.

(** [meta_observe] appends to the log of wandb exactly one mapping, the
    filtered locals of the step, when wandb is imported, the no-log flag
    was clear before the step, the step returned, and after the step the
    no-log flag and the debug flag are clear; in every other case the
    log is the one the step left. *)
Theorem meta_observe_logs_once {Blob} wandb_imported (cls : Strategy Blob)
    (a : list PyVal) (kw : gmap string PyVal) (mc : Machine Blob) :
  let o := observe_method cls a kw (state mc) in
  wandb_log (world (state (meta_observe wandb_imported cls a kw mc).2))
  = wandb_log (world (after o))
    ++ match returned o with
       | Ok _ =>
           if wandb_imported
              && negb (Namespace.nowand (args (self (state mc))))
              && negb (Namespace.nowand (args (self (after o))))
              && negb (Namespace.debug_mode (args (self (after o))))
           then [logged (f_locals o)]
           else []
       | Raise _ => []
       end.
Proof.
  cbv zeta. rewrite meta_observe_run. cbv zeta. unfold logging_on.
  generalize (observe_method cls a kw (state mc)) as o. intros o.
  destruct wandb_imported; simpl;
    [destruct (Namespace.nowand (args (self (state mc)))); simpl|];
    destruct (returned o); simpl; rewrite ?app_nil_r; try done.
  destruct (negb (Namespace.nowand (args (self (after o))))
            && negb (Namespace.debug_mode (args (self (after o)))));
    simpl; by rewrite ?app_nil_r.
Qed.

(** ** How the training step may be called *)

Lemma bind_params_ok (names : list string) (a : list PyVal) (kw : gmap string PyVal) :
  (∃ bound, bind_params names a kw = Ok bound)
  ↔ (length a ≤ length names)%nat ∧ dom kw = list_to_set (drop (length a) names).
Proof.
  unfold bind_params.
  destruct (bool_decide (length a ≤ length names)%nat
            && bool_decide (dom kw = list_to_set (drop (length a) names))) eqn:Hb.
  - apply andb_true_iff in Hb as [H1 H2].
    apply bool_decide_eq_true in H1, H2. split; [done|eauto].
  - split; [by intros [bound Hbound]|].
    intros [H1 H2]. apply andb_false_iff in Hb as [Hb|Hb];
      apply bool_decide_eq_false in Hb; contradiction.
Qed.

Lemma dom_two (kw : gmap string PyVal) (p q : string) :
  p ≠ q →
  dom kw = ({[p]} ∪ ({[q]} ∪ ∅) : gset string)
  ↔ ∃ x y, kw = <[p := x]> {[q := y]}.
Proof.
  intros Hne. split.
  - intros Hdom.
    assert (is_Some (kw !! p)) as [x Hx] by (apply elem_of_dom; set_solver).
    assert (is_Some (kw !! q)) as [y Hy] by (apply elem_of_dom; set_solver).
    exists x, y. apply map_eq. intros k.
    destruct (decide (k = p)) as [->|Hp]; [by rewrite lookup_insert_eq|].
    rewrite lookup_insert_ne by done.
    destruct (decide (k = q)) as [->|Hq]; [by rewrite lookup_singleton_eq|].
    rewrite lookup_singleton_ne by done.
    apply not_elem_of_dom. set_solver.
  - intros (x & y & ->). rewrite dom_insert_L, dom_singleton_L. set_solver.
Qed.

(** On the base class exactly three shapes of call reach the body of
    [observe] and raise [NotImplementedError]: both batches by position,
    the first by position and the second as [next_data], or both by
    keyword.  Every other call raises [TypeError]. *)
Theorem observe_call_shapes {Blob} (a : list PyVal) (kw : gmap string PyVal)
    (s : State Blob) :
  (returned (observe a kw s) = Raise (NotImplementedError "")
   ↔ ∃ c n, (a = [c; n] ∧ kw = ∅)
            ∨ (a = [c] ∧ kw = {["next_data" := n]})
            ∨ (a = [] ∧ kw = <["cur_data" := c]> {["next_data" := n]}))
  ∧ (returned (observe a kw s) ≠ Raise (NotImplementedError "")
     → returned (observe a kw s) = Raise TypeError).
Proof.
  split; [|by destruct (observe_never_returns a kw s) as [_ [H|H]]].
  assert (returned (observe a kw s) = Raise (NotImplementedError "")
          ↔ ∃ bound, bind_params ["cur_data"; "next_data"] a kw = Ok bound) as ->.
  { unfold observe.
    destruct (bind_params ["cur_data"; "next_data"] a kw) as [bound|e] eqn:Hb; simpl.
    - split; eauto.
    - split; [|by intros [bound ?]].
      unfold bind_params in Hb. case_match; [discriminate|].
      injection Hb as <-. discriminate. }
  rewrite bind_params_ok.
  destruct a as [|c [|n [|x a]]]; simpl.
  - rewrite dom_two by done. split.
    + intros (_ & c & n & ->). exists c, n. by right; right.
    + intros (c & n & [[? _]|[[? _]|[_ ->]]]); try discriminate.
      split; [lia|eauto].
  - split.
    + intros [_ Hdom]. rewrite (right_id_L ∅ (∪)) in Hdom.
      apply dom_singleton_inv_L in Hdom as [n ->]. exists c, n. by right; left.
    + intros (c' & n & [[? _]|[[_ ->]|[? _]]]); try discriminate.
      split; [lia|]. by rewrite dom_singleton_L, (right_id_L ∅ (∪)).
  - split.
    + intros [_ Hdom]. apply dom_empty_inv_L in Hdom as ->.
      exists c, n. by left.
    + intros (c' & n' & [[_ ->]|[[? _]|[? _]]]); try discriminate.
      split; [lia|]. by rewrite dom_empty_L.
  - split.
    + intros [Hlen _]. lia.
    + intros (c' & n' & [[? _]|[[? _]|[? _]]]); discriminate.
Qed.

(** Three batches by position. *)
Lemma observe_call_shapes_three :
  returned (observe [PObject 1; PObject 2; PObject 3] ∅
              (Examples.start (Examples.config "sgd" false false) Examples.trained))
  = Raise TypeError.
Proof.
  destruct (observe_call_shapes [PObject 1; PObject 2; PObject 3] ∅
              (Examples.start (Examples.config "sgd" false false) Examples.trained))
    as [_ Hother].
  apply Hother. vm_compute. discriminate.
Defined.

(** ** Computing with a restored network *)

(** After a successful [load] of the tensors [sd] the forward pass is
    the network's own computation run on [sd].  So an adapter restored
    from the checkpoint of another one, with a network of the same
    architecture and the same computation, answers every input as the
    saved adapter does, provided what [torch.save] wrote is read back by
    [torch.load]. *)
Theorem restored_forward_agrees {Blob} (pickle : gmap string Tensor → Blob)
    (unpickle : Blob → option (gmap string Tensor))
    (path : string) (s : State Blob) (other : ContinualModel) :
  unpickle (pickle (state_dict (net (self s)))) = Some (state_dict (net (self s))) →
  path ∉ inaccessible (world s) →
  same_architecture (net (self s)) (net other) →
  forward_fn (net other) = forward_fn (net (self s)) →
  let restored := (load unpickle path (set_self other (save pickle path s).2)).2 in
  (load unpickle path (set_self other (save pickle path s).2)).1 = Ok tt
  ∧ ∀ x, (forward x restored).1 = (forward x s).1.
Proof.
  intros Hpickle Hout Harch Hfn. cbv zeta.
  rewrite (save_written pickle path s Hout). rewrite load_run. simpl.
  rewrite bool_decide_eq_false_2 by done.
  rewrite lookup_insert_eq, Hpickle. unfold load_state_dict.
  assert (fits (state_dict (net (self s))) (state_dict (net other))) as Hfits
    by exact Harch.
  rewrite (fits_loadable _ _ Hfits), (copied_fits _ _ Hfits). simpl.
  split; [done|]. intros x. unfold forward, call_module. simpl. rewrite Hfn.
  by destruct (forward_fn (net (self s)) (state_dict (net (self s))) x).
Qed.

(** The fresh layer restored from the checkpoint of the trained one. *)
Lemma restored_forward_agrees_layer :
  let s := Examples.start (Examples.config "sgd" false false) Examples.trained in
  let other := Examples.adapter (Examples.config "adam" true false) Examples.fresh in
  (load Some "ckpt.pt" (set_self other (save id "ckpt.pt" s).2)).1 = Ok tt
  ∧ ∀ x, (forward x (load Some "ckpt.pt" (set_self other (save id "ckpt.pt" s).2)).2).1
         = (forward x s).1.
Proof.
  intros s other.
  apply (restored_forward_agrees id Some "ckpt.pt" s other).
  - reflexivity.
  - vm_compute. intros H. discriminate H.
  - split.
    + reflexivity.
    + intros k t1 t2. simpl. rewrite !lookup_insert, !lookup_empty.
      repeat case_decide; intros H1 H2; simplify_eq; reflexivity.
  - reflexivity.
Defined.
